(** * Face identity resolution engine: a shallow embedding

    The development follows the two Python modules of the repository:

    - [face_recognition_service.py], class [FaceRecognitionService]
      (training, single-image recognition, gallery persistence);
    - [realtime_face_recognition.py], class [RealTimeRecognition]
      (gallery loading at construction, per-frame recognition).

    Modelling conventions.

    - Python floats (distances, confidences, LBPH scores) are exact
      rationals [Q]; comparisons are the boolean tests the code writes.
      Rounding is not part of these definitions; the two float lines of the
      matcher are given on binary64 numbers in [Binary64].
    - Integer labels and pixel coordinates are [Z].
    - [student_data] (a dict keyed by label id) is a [gmap Z StudentInfo].
    - A raised Python exception is a value [Raise msg]; every
      [try ... except Exception] of the source is a [match] on it.
    - Everything the code asks of the operating system and of the
      [face_recognition] and [cv2] libraries is a field of [World].
    - Diagnostics printed to [sys.stderr] do not influence any result and
      are not kept.
    - The model directory is first a record of optional file contents,
      with writes that fail at [open]; [Persistence] and [Training] give
      the same methods on files that may be unreadable, with writes that
      may fail after [open] and a [recognizer.train] that may raise. *)

From Stdlib Require Import ZArith QArith Qabs Lqa Lia Ascii Floats.
From stdpp Require Import base option list gmap strings pretty.

Open Scope string_scope.
Open Scope list_scope.

(** ** Exceptions *)

Inductive Exc (A : Type) : Type :=
| Raise (msg : string)
| Ok (a : A).
Arguments Raise {A} msg.
Arguments Ok {A} a.

#[global] Instance Exc_ret : MRet Exc := fun A a => Ok a.

#[global] Instance Exc_bind : MBind Exc := fun A B k m =>
  match m with
  | Raise msg => Raise msg
  | Ok a => k a
  end.

(** ** Data *)

(** A 128-dimensional face descriptor. *)
Definition Encoding : Type := list Q.

(** [(top, right, bottom, left)]. *)
Definition Location : Type := (Z * Z * Z * Z)%type.

(** An OpenCV rectangle [(x, y, w, h)]. *)
Definition Rect : Type := (Z * Z * Z * Z)%type.

(** The 200x200 grey patch [cv2.resize(gray[y:y+h, x:x+w], (200, 200))]:
    determined by the image it is cut from and the rectangle. *)
Definition Patch : Type := (string * Rect)%type.

(** A trained LBPH recogniser: determined by its training set. *)
Definition Recognizer : Type := (list Patch * list Z)%type.

(** A value of [student_data]: [{'id': .., 'name': .., 'department': ..}]. *)
Record StudentInfo : Type := mkStudentInfo {
  si_id : string;
  si_name : string;
  si_department : string
}.

(** One element of [students_data]. [student.get('imagePath')] may be
    [None]. *)
Record Student : Type := mkStudent {
  st_id : string;
  st_name : string;
  st_department : string;
  st_imagePath : option string;
  st_labelId : Z
}.

(** One element of the [results] / [faces] list. *)
Record MatchResult : Type := mkMatchResult {
  labelId : Z;
  name : string;
  department : string;
  confidence : Q;
  location : Location
}.

(** The dict returned by [train_from_database]. *)
Record TrainResult : Type := mkTrainResult {
  tr_success : bool;
  tr_message : string;
  tr_trained_count : option nat
}.

(** The dict returned by [recognize_face] (key [results]) and serialised
    by [recognize_frame] (key [faces]). *)
Record RecognizeResult : Type := mkRecognizeResult {
  rr_success : bool;
  rr_message : option string;
  rr_faces : option (list MatchResult)
}.

Definition failure (msg : string) : RecognizeResult :=
  {| rr_success := false; rr_message := Some msg; rr_faces := None |}.

Definition found (faces : list MatchResult) : RecognizeResult :=
  {| rr_success := true; rr_message := None; rr_faces := Some faces |}.

(** The in-memory gallery of either class. *)
Record Gallery : Type := mkGallery {
  known_encodings : list Encoding;
  known_labels : list Z;
  student_data : gmap Z StudentInfo;
  recognizer : option Recognizer
}.

(** What [__init__] assigns. *)
Definition fresh_gallery : Gallery :=
  {| known_encodings := []; known_labels := [];
     student_data := ∅; recognizer := None |}.

(** The content pickled into [labels.pkl]: the embedding path writes
    [{'labels': .., 'student_data': ..}], the classifier path writes the
    [label_to_student] dict itself. *)
Inductive LabelsPickle : Type :=
| EmbeddingLabels (labels : list Z) (sd : gmap Z StudentInfo)
| ClassifierLabels (label_to_student : gmap Z StudentInfo).

(** The model directory: each file is absent or holds what was last
    written to it. *)
Record Files : Type := mkFiles {
  encodings_path : option (list Encoding);
  labels_path : option LabelsPickle;
  model_path : option Recognizer
}.

Definition no_files : Files :=
  {| encodings_path := None; labels_path := None; model_path := None |}.

Inductive ModelFile : Type := EncodingsPkl | LabelsPkl | RecognizerPkl.

(** ** The environment *)

Record World : Type := mkWorld {
  (** the outcome of [import face_recognition] at module load *)
  FACE_RECOGNITION_AVAILABLE : bool;
  (** [os.path.exists] on an image path *)
  path_exists : string → bool;
  (** whether [open(file, 'wb')] in the model directory succeeds *)
  writable : ModelFile → bool;
  (** [face_recognition.load_image_file] followed by [face_locations] and
      [face_encodings]: the located faces in detection order, or the
      exception raised on an unreadable image *)
  locate_and_encode : string → Exc (list (Location * Encoding));
  (** [np.linalg.norm(known - query)] for one enrolled descriptor *)
  norm_diff : Encoding → Encoding → Q;
  (** the outcome of [from cv2 import face] *)
  cv2_face_available : bool;
  (** whether [cv2.imread] returns an image *)
  imread_ok : string → bool;
  (** the cascade file of the model directory: whether the file exists,
      and whether [cv2.CascadeClassifier] of it is non-empty *)
  cascade_in_model_dir : bool * bool;
  (** the same for the two fallback locations under [src/main/resources] *)
  cascade_fallbacks : list (bool * bool);
  (** [face_cascade.detectMultiScale(gray, 1.1, 5)] with a loaded cascade *)
  detectMultiScale : string → list Rect;
  (** [recognizer.predict(face_roi)]: label and raw score *)
  predict : Recognizer → Patch → Z * Q
}.

(** ** Numeric helpers *)

(** [a > b] on floats. *)
Definition Qgtb (a b : Q) : bool := negb (Qle_bool a b).

(** [np.argmin]: index of the first occurrence of the minimum;
    [ValueError] on an empty sequence. *)
Fixpoint argmin_from (best_i : nat) (best : Q) (i : nat) (l : list Q) : nat :=
  match l with
  | [] => best_i
  | d :: rest =>
      if Qgtb best d then argmin_from i d (S i) rest
      else argmin_from best_i best (S i) rest
  end.

Definition argmin (l : list Q) : Exc nat :=
  match l with
  | [] => Raise "attempt to get argmin of an empty sequence"
  | d :: rest => Ok (argmin_from 0 d 1 rest)
  end.

(** Indexing [l[i]] with Python's [IndexError]. *)
Definition index {A : Type} (l : list A) (i : nat) : Exc A :=
  match l !! i with
  | Some a => Ok a
  | None => Raise "list index out of range"
  end.

(** The [Unknown] result both classes build. *)
Definition unknown_result (conf : Q) (loc : Location) : MatchResult :=
  {| labelId := -1; name := "Unknown"; department := "";
     confidence := conf; location := loc |}.

(** [str(path_str).replace('\\', '/')]. *)
Fixpoint replace_backslash (s : string) : string :=
  match s with
  | EmptyString => EmptyString
  | String c rest =>
      String (if Ascii.eqb c "\"%char then "/"%char else c)
             (replace_backslash rest)
  end.

(** A non-empty string is truthy. *)
Definition truthy (s : string) : bool :=
  match s with
  | EmptyString => false
  | String _ _ => true
  end.

Definition _normalize_path (path_str : option string) : option string :=
  match path_str with
  | Some p => if truthy p then Some (replace_backslash p) else path_str
  | None => path_str
  end.

(** [not image_path or not os.path.exists(image_path)]. *)
Definition image_missing (W : World) (image_path : option string) : bool :=
  match image_path with
  | Some p => negb (truthy p) || negb (path_exists W p)
  | None => true
  end.

(** [face_recognition.face_distance(known, query)]. *)
Definition face_distance (W : World) (known : list Encoding) (q : Encoding)
  : list Q :=
  map (fun k => norm_diff W k q) known.

(** [face_recognition.compare_faces(known, query, tolerance)]:
    [list(face_distance(known, query) <= tolerance)]. *)
Definition compare_faces (W : World) (known : list Encoding) (q : Encoding)
    (tolerance : Q) : list bool :=
  map (fun d => Qle_bool d tolerance) (face_distance W known q).

(** [face_recognition.face_encodings(image)] on a loaded file. *)
Definition face_encodings (W : World) (image_path : string)
  : Exc (list Encoding) :=
  faces ← locate_and_encode W image_path; Ok (map snd faces).

(** The search [for path in cascade_paths: if os.path.exists(path): ..;
    break] over candidates given as (exists, loads non-empty): the first
    one that exists, with whether the classifier built from it is
    non-empty. *)
Fixpoint first_existing (candidates : list (bool * bool)) : option bool :=
  match candidates with
  | [] => None
  | (exists_, loads) :: rest =>
      if exists_ then Some loads else first_existing rest
  end.

(** [max(faces, key=lambda x: x[2] * x[3])]: the first element whose key
    is maximal. *)
Definition area (r : Rect) : Z :=
  match r with (_, _, w, h) => (w * h)%Z end.

Fixpoint max_by_area (best : Rect) (faces : list Rect) : Rect :=
  match faces with
  | [] => best
  | r :: rest =>
      if (area best <? area r)%Z then max_by_area r rest
      else max_by_area best rest
  end.

(** [(int(y), int(x+w), int(y+h), int(x))]. *)
Definition rect_location (r : Rect) : Location :=
  match r with (x, y, w, h) => (y, x + w, y + h, x)%Z end.

(** [s.lower()] and [sub in s]. *)
Definition lower_char (c : ascii) : ascii :=
  let n := nat_of_ascii c in
  if (65 <=? n)%nat && (n <=? 90)%nat then ascii_of_nat (n + 32) else c.

Fixpoint lower (s : string) : string :=
  match s with
  | EmptyString => EmptyString
  | String c rest => String (lower_char c) (lower rest)
  end.

Fixpoint contains (sub s : string) : bool :=
  String.prefix sub s ||
  match s with
  | EmptyString => false
  | String _ rest => contains sub rest
  end.

(** [data.get('labels', [])] and [data.get('student_data', {})] on the
    unpickled [labels.pkl]; the classifier dict has integer keys only. *)
Definition get_labels (data : LabelsPickle) : list Z :=
  match data with
  | EmbeddingLabels labels _ => labels
  | ClassifierLabels _ => []
  end.

Definition get_student_data (data : LabelsPickle) : gmap Z StudentInfo :=
  match data with
  | EmbeddingLabels _ sd => sd
  | ClassifierLabels _ => ∅
  end.

(** Which private method a public call hands the work to. *)
Inductive Route : Type := ViaFaceRecognition | ViaOpenCV | NoRoute.

Definition nonempty {A : Type} (l : list A) : bool :=
  match l with
  | [] => false
  | _ :: _ => true
  end.

Definition student_info (student : Student) : StudentInfo :=
  {| si_id := st_id student; si_name := st_name student;
     si_department := st_department student |}.

Definition train_failure (msg : string) : TrainResult :=
  {| tr_success := false; tr_message := msg; tr_trained_count := None |}.

Definition train_success (n : nat) : TrainResult :=
  {| tr_success := true;
     tr_message := "Trained " +:+ pretty n +:+ " faces successfully";
     tr_trained_count := Some n |}.

(** ** [face_recognition_service.py] *)

Module FaceRecognitionService.
Section Service.
Context (W : World).

(** *** Persistence *)

(** Each [open(.., 'wb')] may raise; the first exception ends the method
    (it is printed and swallowed). *)
Definition _save_model (g : Gallery) (fs : Files) : Files :=
  if writable W EncodingsPkl then
    let fs1 := {| encodings_path := Some (known_encodings g);
                  labels_path := labels_path fs;
                  model_path := model_path fs |} in
    if writable W LabelsPkl then
      {| encodings_path := encodings_path fs1;
         labels_path :=
           Some (EmbeddingLabels (known_labels g) (student_data g));
         model_path := model_path fs1 |}
    else fs1
  else fs.

Definition _load_model (g : Gallery) (fs : Files) : Gallery * bool :=
  match encodings_path fs, labels_path fs with
  | Some encodings, Some data =>
      ({| known_encodings := encodings;
          known_labels := get_labels data;
          student_data := get_student_data data;
          recognizer := recognizer g |}, true)
  | _, _ => (g, false)
  end.

(** *** Training, embedding path *)

Definition enroll (g : Gallery) (encoding : Encoding) (student : Student)
  : Gallery :=
  {| known_encodings := known_encodings g ++ [encoding];
     known_labels := known_labels g ++ [st_labelId student];
     student_data :=
       <[st_labelId student := student_info student]> (student_data g);
     recognizer := recognizer g |}.

(** The body of the [for student in students_data] loop. *)
Definition train_one (student : Student) (acc : Gallery * nat)
  : Gallery * nat :=
  let '(g, trained_count) := acc in
  let image_path := _normalize_path (st_imagePath student) in
  if image_missing W image_path then acc
  else
    match face_encodings W (default "" image_path) with
    | Ok (encoding :: _) => (enroll g encoding student, S trained_count)
    | Ok [] => acc
    | Raise _ => acc
    end.

Fixpoint train_loop (students_data : list Student) (acc : Gallery * nat)
  : Gallery * nat :=
  match students_data with
  | [] => acc
  | student :: rest => train_loop rest (train_one student acc)
  end.

Definition _train_with_face_recognition (students_data : list Student)
    (g : Gallery) (fs : Files) : Gallery * Files * TrainResult :=
  let '(g', trained_count) := train_loop students_data (g, 0%nat) in
  if (trained_count =? 0)%nat then
    (g', fs, train_failure "No faces found in training images")
  else
    (g', _save_model g' fs, train_success trained_count).

(** *** Training, classifier path *)

(** [face_cascade] after the fallback search: whether it is non-empty. *)
Definition cascade_loaded : bool :=
  let '(exists_, loads) := cascade_in_model_dir W in
  if exists_ && loads then true
  else default false (first_existing (cascade_fallbacks W)).

(** [detectMultiScale] raises on an empty cascade. *)
Definition detect (image_path : string) : Exc (list Rect) :=
  if cascade_loaded then Ok (detectMultiScale W image_path)
  else Raise "OpenCV: empty cascade in detectMultiScale".

(** [images], [labels], [label_to_student]. *)
Definition CvAcc : Type :=
  (list Patch * list Z * gmap Z StudentInfo)%type.

Definition cv_train_one (student : Student) (acc : CvAcc) : CvAcc :=
  let '(images, labels, label_to_student) := acc in
  let image_path := _normalize_path (st_imagePath student) in
  if image_missing W image_path then acc
  else
    let p := default "" image_path in
    if negb (imread_ok W p) then acc
    else
      match detect p with
      | Ok (r :: rest) =>
          let largest_face := max_by_area r rest in
          (images ++ [(p, largest_face)],
           labels ++ [st_labelId student],
           <[st_labelId student := student_info student]> label_to_student)
      | Ok [] => acc
      | Raise _ => acc
      end.

Fixpoint cv_train_loop (students_data : list Student) (acc : CvAcc) : CvAcc :=
  match students_data with
  | [] => acc
  | student :: rest => cv_train_loop rest (cv_train_one student acc)
  end.

Definition _train_with_opencv (students_data : list Student)
    (g : Gallery) (fs : Files) : Gallery * Files * TrainResult :=
  if negb (cv2_face_available W) then
    (g, fs, train_failure
       "OpenCV face module not available. Please install opencv-contrib-python: pip install opencv-contrib-python")
  else
    let '(images, labels, label_to_student) :=
      cv_train_loop students_data ([], [], ∅) in
    if (length images =? 0)%nat then
      (g, fs, train_failure "No faces found in training images")
    else if negb (writable W RecognizerPkl) then
      (* [recognizer.save] raises *)
      (g, fs, train_failure "OpenCV training error: Permission denied")
    else
      let fs1 := {| encodings_path := encodings_path fs;
                    labels_path := labels_path fs;
                    model_path := Some (images, labels) |} in
      let g1 := {| known_encodings := known_encodings g;
                   known_labels := known_labels g;
                   student_data := label_to_student;
                   recognizer := Some (images, labels) |} in
      if negb (writable W LabelsPkl) then
        (* [open(self.labels_path, 'wb')] raises *)
        (g1, fs1, train_failure "OpenCV training error: Permission denied")
      else
        (g1,
         {| encodings_path := encodings_path fs1;
            labels_path := Some (ClassifierLabels label_to_student);
            model_path := model_path fs1 |},
         train_success (length images)).

(** *** [train_from_database] *)

Definition nl : string := String (ascii_of_nat 10) EmptyString.

Definition remediation : string :=
  "Python face recognition libraries not installed." +:+ nl +:+
  "Options:" +:+ nl +:+
  "1. Install face-recognition (recommended): pip install face-recognition"
  +:+ nl +:+
  "2. Install opencv-contrib-python: pip install opencv-contrib-python"
  +:+ nl +:+
  "3. Use Java implementation: /api/training/train?usePython=java".

(** The three assignments that open the method. *)
Definition reset (g : Gallery) : Gallery :=
  {| known_encodings := []; known_labels := []; student_data := ∅;
     recognizer := recognizer g |}.

(** The method, each branch tagged with the private method it calls. *)
Definition train_from_database_routed (students_data : list Student)
    (g : Gallery) (fs : Files) : Route * (Gallery * Files * TrainResult) :=
  let g0 := reset g in
  if FACE_RECOGNITION_AVAILABLE W then
    (ViaFaceRecognition, _train_with_face_recognition students_data g0 fs)
  else
    let '(g', fs', result) := _train_with_opencv students_data g0 fs in
    (ViaOpenCV,
     if negb (tr_success result) then
       let error_msg := tr_message result in
       if contains "not available" (lower error_msg)
          || contains "cannot import" (lower error_msg)
       then (g', fs', train_failure remediation)
       else (g', fs', result)
     else (g', fs', result)).

Definition train_from_database (students_data : list Student)
    (g : Gallery) (fs : Files) : Gallery * Files * TrainResult :=
  snd (train_from_database_routed students_data g fs).

(** *** Recognition *)

(** The body of the [for face_encoding, face_location in zip(..)] loop. *)
Definition match_face (g : Gallery) (face : Location * Encoding)
  : Exc MatchResult :=
  let '(face_location, face_encoding) := face in
  let matches := compare_faces W (known_encodings g) face_encoding (6 # 10) in
  let face_distances := face_distance W (known_encodings g) face_encoding in
  best_match_index ← argmin face_distances;
  d ← index face_distances best_match_index;
  let confidence : Q := (1 - d)%Q in
  m ← index matches best_match_index;
  if m && Qgtb confidence (1 # 2) then
    label_id ← index (known_labels g) best_match_index;
    match student_data g !! label_id with
    | Some student =>
        Ok {| labelId := label_id; name := si_name student;
              department := si_department student;
              confidence := confidence; location := face_location |}
    | None => Ok (unknown_result confidence face_location)
    end
  else Ok (unknown_result confidence face_location).

Definition _recognize_with_face_recognition (g : Gallery)
    (image_path : string) : RecognizeResult :=
  match
    faces ← locate_and_encode W image_path;
    if (length faces =? 0)%nat then Ok (failure "No face detected")
    else results ← mapM (match_face g) faces; Ok (found results)
  with
  | Ok r => r
  | Raise e => failure ("Recognition error: " +:+ e)
  end.

(** The body of the [for (x, y, w, h) in faces] loop. *)
Definition classify_face (r : Recognizer) (sd : gmap Z StudentInfo)
    (image_path : string) (face : Rect) : MatchResult :=
  let '(label_id, raw) := predict W r (image_path, face) in
  let confidence_score : Q := ((100 - raw) / 100)%Q in
  match Qgtb confidence_score (1 # 2), sd !! label_id with
  | true, Some student =>
      {| labelId := label_id; name := si_name student;
         department := si_department student;
         confidence := confidence_score; location := rect_location face |}
  | _, _ => unknown_result confidence_score (rect_location face)
  end.

Definition _recognize_with_opencv (g : Gallery) (r : Recognizer)
    (image_path : string) : RecognizeResult :=
  if negb (imread_ok W image_path) then failure "Could not load image"
  else
    match detect image_path with
    | Raise e => failure ("Recognition error: " +:+ e)
    | Ok faces =>
        if (length faces =? 0)%nat then failure "No face detected"
        else found (map (classify_face r (student_data g) image_path) faces)
    end.

(** The method, each branch tagged with the private method it calls. *)
Definition recognize_face_routed (g : Gallery) (image_path : string)
  : Route * RecognizeResult :=
  if negb (path_exists W image_path) then
    (NoRoute, failure "Image file not found")
  else if FACE_RECOGNITION_AVAILABLE W && nonempty (known_encodings g) then
    (ViaFaceRecognition, _recognize_with_face_recognition g image_path)
  else
    match recognizer g with
    | Some r => (ViaOpenCV, _recognize_with_opencv g r image_path)
    | None => (NoRoute, failure "Model not trained")
    end.

Definition recognize_face (g : Gallery) (image_path : string)
  : RecognizeResult :=
  snd (recognize_face_routed g image_path).

(** *** [main] *)

(** [service = FaceRecognitionService()] assigns the empty gallery and
    reads no file; each command is then one method call. *)
Definition main_train (fs : Files) (students_data : list Student)
  : Gallery * Files * TrainResult :=
  train_from_database students_data fresh_gallery fs.

Definition main_recognize (fs : Files) (image_path : string)
  : RecognizeResult :=
  recognize_face fresh_gallery image_path.

(** *** Call sequences on one service object *)

Inductive Call : Type :=
| Train (students_data : list Student)
| Recognize (image_path : string)
| LoadModel.

Definition call (c : Call) (st : Gallery * Files)
  : Gallery * Files * Route :=
  let '(g, fs) := st in
  match c with
  | Train students_data =>
      let '(route, (g', fs', _)) :=
        train_from_database_routed students_data g fs in
      (g', fs', route)
  | Recognize image_path =>
      (g, fs, fst (recognize_face_routed g image_path))
  | LoadModel => (fst (_load_model g fs), fs, NoRoute)
  end.

(** The routes taken by a sequence of calls, and the final state. *)
Fixpoint run (calls : list Call) (st : Gallery * Files)
  : list Route * (Gallery * Files) :=
  match calls with
  | [] => ([], st)
  | c :: rest =>
      let '(g', fs', route) := call c st in
      let '(routes, final) := run rest (g', fs') in
      (route :: routes, final)
  end.

End Service.
End FaceRecognitionService.

(** ** [realtime_face_recognition.py] *)

Module RealTimeRecognition.
Section RealTime.
Context (W : World).

(** [load_model], called by [__init__]. In the classifier branch the whole
    unpickled object becomes [student_data]; an embedding-format file has
    the string keys ['labels'] and ['student_data'] only, hence no integer
    key. *)
Definition load_model (g : Gallery) (fs : Files) : Gallery :=
  if FACE_RECOGNITION_AVAILABLE W then
    match encodings_path fs, labels_path fs with
    | Some encodings, Some data =>
        {| known_encodings := encodings;
           known_labels := get_labels data;
           student_data := get_student_data data;
           recognizer := recognizer g |}
    | _, _ => g
    end
  else
    match model_path fs, labels_path fs with
    | Some model, Some data =>
        if cv2_face_available W then
          {| known_encodings := known_encodings g;
             known_labels := known_labels g;
             student_data :=
               match data with
               | ClassifierLabels label_to_student => label_to_student
               | EmbeddingLabels _ _ => ∅
               end;
             recognizer := Some model |}
        else g
    | _, _ => g
    end.

Definition __init__ (fs : Files) : Gallery := load_model fresh_gallery fs.

(** The body of the loop over the located faces. *)
Definition match_face (g : Gallery) (face : Location * Encoding)
  : Exc MatchResult :=
  let '(face_location, face_encoding) := face in
  let matches := compare_faces W (known_encodings g) face_encoding (6 # 10) in
  let face_distances := face_distance W (known_encodings g) face_encoding in
  best_match_index ← argmin face_distances;
  d ← index face_distances best_match_index;
  let confidence : Q := (1 - d)%Q in
  m ← index matches best_match_index;
  if m && Qgtb confidence (1 # 2) then
    label_id ← index (known_labels g) best_match_index;
    let student := student_data g !! label_id in
    Ok {| labelId := label_id;
          name := default "Unknown" (si_name <$> student);
          department := default "" (si_department <$> student);
          confidence := confidence; location := face_location |}
  else Ok (unknown_result confidence face_location).

Definition _recognize_with_face_recognition (g : Gallery)
    (frame_path : string) : RecognizeResult :=
  match
    faces ← locate_and_encode W frame_path;
    if (length faces =? 0)%nat then Ok (found [])
    else results ← mapM (match_face g) faces; Ok (found results)
  with
  | Ok r => r
  | Raise e => failure e
  end.

(** The first candidate path that exists, loaded; [None] when no candidate
    exists. *)
Definition face_cascade : option bool :=
  first_existing (cascade_in_model_dir W :: cascade_fallbacks W).

Definition classify_face (r : Recognizer) (sd : gmap Z StudentInfo)
    (frame_path : string) (face : Rect) : MatchResult :=
  let '(label_id, raw) := predict W r (frame_path, face) in
  let confidence_score : Q := ((100 - raw) / 100)%Q in
  match Qgtb confidence_score (1 # 2), sd !! label_id with
  | true, Some student =>
      {| labelId := label_id; name := si_name student;
         department := si_department student;
         confidence := confidence_score; location := rect_location face |}
  | _, _ => unknown_result confidence_score (rect_location face)
  end.

Definition _recognize_with_opencv (g : Gallery) (r : Recognizer)
    (frame_path : string) : RecognizeResult :=
  if negb (imread_ok W frame_path) then failure "Could not load image"
  else
    match face_cascade with
    | Some true =>
        let faces := detectMultiScale W frame_path in
        if (length faces =? 0)%nat then found []
        else found (map (classify_face r (student_data g) frame_path) faces)
    | _ => failure "Cascade not found"
    end.

(** The method, each branch tagged with the private method it calls. *)
Definition recognize_frame_routed (g : Gallery) (frame_path : string)
  : Route * RecognizeResult :=
  if negb (path_exists W frame_path) then (NoRoute, failure "Frame not found")
  else if FACE_RECOGNITION_AVAILABLE W && nonempty (known_encodings g) then
    (ViaFaceRecognition, _recognize_with_face_recognition g frame_path)
  else
    match recognizer g with
    | Some r => (ViaOpenCV, _recognize_with_opencv g r frame_path)
    | None => (NoRoute, failure "Model not loaded")
    end.

Definition recognize_frame (g : Gallery) (frame_path : string)
  : RecognizeResult :=
  snd (recognize_frame_routed g frame_path).

(** [main]: a new process builds the object, then answers one frame. *)
Definition main (fs : Files) (frame_path : string) : RecognizeResult :=
  recognize_frame (__init__ fs) frame_path.

End RealTime.
End RealTimeRecognition.

(** ** Specification vocabulary *)

(** [i] is the position of the first minimum of [l], whose value is [m]. *)
Definition first_min (l : list Q) (i : nat) (m : Q) : Prop :=
  l !! i = Some m ∧
  (∀ x, x ∈ l → (m <= x)%Q) ∧
  (∀ k x, (k < i)%nat → l !! k = Some x → (m < x)%Q).

(** The invariant of the data model: one label per enrolled descriptor, and
    an identity record for every label. *)
Definition gallery_wf (g : Gallery) : Prop :=
  length (known_labels g) = length (known_encodings g) ∧
  ∀ l, l ∈ known_labels g → is_Some (student_data g !! l).

(** The acceptance test of the source, as a proposition on the distance. *)
Definition accepted (d : Q) : Prop := (d <= 6 # 10)%Q ∧ (1 # 2 < 1 - d)%Q.

Definition acceptedb (d : Q) : bool :=
  Qle_bool d (6 # 10) && Qgtb (1 - d) (1 # 2).

(** The nearest enrolled entry of a well-formed gallery: position, distance,
    label and identity record. *)
Definition nearest (W : World) (g : Gallery) (q : Encoding)
    (i : nat) (d : Q) (l : Z) (s : StudentInfo) : Prop :=
  first_min (face_distance W (known_encodings g) q) i d ∧
  known_labels g !! i = Some l ∧
  student_data g !! l = Some s.

(** ** A concrete environment *)

Module Demo.

(** Descriptors of dimension one, where the Euclidean norm of a difference
    is its absolute value. *)
Definition distance (known q : Encoding) : Q :=
  Qabs (hd 0%Q known - hd 0%Q q).

Definition box : Location := (10, 60, 60, 10)%Z.
Definition box2 : Location := (10, 160, 60, 110)%Z.

Definition faces_of (p : string) : Exc (list (Location * Encoding)) :=
  if String.eqb p "photos/alice.jpg" then Ok [(box, [0%Q])]
  else if String.eqb p "photos/bob.jpg" then Ok [(box, [1%Q])]
  else if String.eqb p "photos/pair.jpg" then
    Ok [(box, [1%Q]); (box2, [0%Q])]
  else if String.eqb p "photos/alice_again.jpg" then Ok [(box, [1 # 10])]
  else if String.eqb p "photos/stranger.jpg" then Ok [(box, [3 # 2])]
  else if String.eqb p "photos/wall.jpg" then Ok []
  else Raise "cannot identify image file".

Definition rects_of (p : string) : list Rect :=
  if String.eqb p "photos/alice.jpg" then [(10, 10, 50, 50)%Z]
  else if String.eqb p "photos/bob.jpg" then [(12, 8, 40, 40)%Z]
  else if String.eqb p "photos/pair.jpg" then
    [(0, 0, 10, 10)%Z; (20, 20, 50, 50)%Z]
  else if String.eqb p "photos/stranger.jpg" then [(5, 5, 30, 30)%Z]
  else [].

Definition on_disk (p : string) : bool :=
  existsb (String.eqb p)
    ["photos/alice.jpg"; "photos/bob.jpg"; "photos/pair.jpg";
     "photos/alice_again.jpg"; "photos/stranger.jpg"; "photos/wall.jpg";
     "photos/broken.jpg"].

(** The LBPH score of the demo: 30 on Alice's own photo, 150 elsewhere. *)
Definition score (r : Recognizer) (patch : Patch) : Z * Q :=
  if String.eqb (fst patch) "photos/alice.jpg" then (1%Z, 30%Q)
  else (1%Z, 150%Q).

Definition all_writable (f : ModelFile) : bool := true.

(** [labels.pkl] cannot be opened for writing. *)
Definition labels_locked (f : ModelFile) : bool :=
  match f with
  | LabelsPkl => false
  | _ => true
  end.

Definition world (embedding : bool) (w : ModelFile → bool) : World :=
  {| FACE_RECOGNITION_AVAILABLE := embedding;
     path_exists := on_disk;
     writable := w;
     locate_and_encode := faces_of;
     norm_diff := distance;
     cv2_face_available := true;
     imread_ok := fun p => negb (String.eqb p "photos/broken.jpg");
     cascade_in_model_dir := (true, true);
     cascade_fallbacks := [(false, false); (false, false)];
     detectMultiScale := rects_of;
     predict := score |}.

Definition embedding_world : World := world true all_writable.
Definition classifier_world : World := world false all_writable.

Definition alice : Student :=
  {| st_id := "S1"; st_name := "Alice"; st_department := "CS";
     st_imagePath := Some "photos\alice.jpg"; st_labelId := 1 |}.

Definition bob : Student :=
  {| st_id := "S2"; st_name := "Bob"; st_department := "EE";
     st_imagePath := Some "photos/bob.jpg"; st_labelId := 2 |}.

Definition pair : Student :=
  {| st_id := "S3"; st_name := "Carol"; st_department := "ME";
     st_imagePath := Some "photos/pair.jpg"; st_labelId := 3 |}.

Definition ghost : Student :=
  {| st_id := "S4"; st_name := "Dan"; st_department := "CS";
     st_imagePath := Some "photos/nowhere.jpg"; st_labelId := 4 |}.

Definition wall : Student :=
  {| st_id := "S5"; st_name := "Eve"; st_department := "CS";
     st_imagePath := Some "photos/wall.jpg"; st_labelId := 5 |}.

Definition pathless : Student :=
  {| st_id := "S6"; st_name := "Fay"; st_department := "CS";
     st_imagePath := None; st_labelId := 6 |}.

(** The gallery holding Alice alone, and the one holding Alice and Bob. *)
Definition alice_info : StudentInfo := student_info alice.
Definition bob_info : StudentInfo := student_info bob.

Definition gallery_alice : Gallery :=
  {| known_encodings := [[0%Q]]; known_labels := [1%Z];
     student_data := {[ 1%Z := alice_info ]}; recognizer := None |}.

Definition gallery_alice_bob : Gallery :=
  {| known_encodings := [[0%Q]; [1%Q]]; known_labels := [1%Z; 2%Z];
     student_data := {[ 1%Z := alice_info; 2%Z := bob_info ]};
     recognizer := None |}.

(** The model directory after a training run that enrolled Alice alone. *)
Definition files_alice : Files :=
  {| encodings_path := Some [[0%Q]];
     labels_path := Some (EmbeddingLabels [1%Z] {[ 1%Z := alice_info ]});
     model_path := None |}.

Definition locked_world : World := world true labels_locked.

(** A gallery of the classifier path, trained on Alice's photograph. *)
Definition gallery_classifier : Gallery :=
  {| known_encodings := []; known_labels := [];
     student_data := {[ 1%Z := alice_info ]};
     recognizer := Some ([("photos/alice.jpg", (10, 10, 50, 50)%Z)], [1%Z]) |}.

End Demo.

(** A record the embedding path can enroll: it names an image, the file
    exists, it loads, and at least one face is located in it. *)
Definition enrollable (W : World) (student : Student) : Prop :=
  ∃ p faces,
    _normalize_path (st_imagePath student) = Some p ∧ p ≠ "" ∧
    path_exists W p = true ∧
    locate_and_encode W p = Ok faces ∧ faces ≠ [].

Definition enrollableb (W : World) (student : Student) : bool :=
  match _normalize_path (st_imagePath student) with
  | Some p =>
      truthy p && path_exists W p &&
      match locate_and_encode W p with
      | Ok (_ :: _) => true
      | _ => false
      end
  | None => false
  end.

(** The same for the classifier path: the image is read by [cv2.imread],
    a cascade is loaded, and at least one rectangle is detected. *)
Definition cv_enrollable (W : World) (student : Student) : Prop :=
  ∃ p,
    _normalize_path (st_imagePath student) = Some p ∧ p ≠ "" ∧
    path_exists W p = true ∧ imread_ok W p = true ∧
    FaceRecognitionService.cascade_loaded W = true ∧
    detectMultiScale W p ≠ [].

Definition cv_enrollableb (W : World) (student : Student) : bool :=
  match _normalize_path (st_imagePath student) with
  | Some p =>
      truthy p && path_exists W p && imread_ok W p &&
      FaceRecognitionService.cascade_loaded W &&
      nonempty (detectMultiScale W p)
  | None => false
  end.

(** [i] is the position of the first rectangle of maximal area in [l],
    which is [m]. *)
Definition first_max_area (l : list Rect) (i : nat) (m : Rect) : Prop :=
  l !! i = Some m ∧
  (∀ x, x ∈ l → (area x <= area m)%Z) ∧
  (∀ k x, (k < i)%nat → l !! k = Some x → (area x < area m)%Z).

(** A result dict carries either the faces or a message. *)
Definition well_formed (r : RecognizeResult) : Prop :=
  (rr_success r = true ∧ is_Some (rr_faces r)) ∨
  (rr_success r = false ∧ is_Some (rr_message r)).

(** The gallery with [recognizer] replaced: what [_load_model] assigns. *)
Definition loaded_over (g0 g : Gallery) : Gallery :=
  {| known_encodings := known_encodings g; known_labels := known_labels g;
     student_data := student_data g; recognizer := recognizer g0 |}.

(** What each call may route to when the embedding library was imported. *)
Definition embedding_route (c : FaceRecognitionService.Call) (route : Route)
  : Prop :=
  match c with
  | FaceRecognitionService.Train _ => route = ViaFaceRecognition
  | FaceRecognitionService.Recognize _ =>
      route = ViaFaceRecognition ∨ route = NoRoute
  | FaceRecognitionService.LoadModel => route = NoRoute
  end.

(** ** Command lines *)

(** What [main] prints on standard output: the JSON of one result dict. *)
Inductive Printed : Type :=
| PrintedTrain (result : TrainResult)
| PrintedRecognize (result : RecognizeResult)
| PrintedError (message : string).

(** A finished process: its standard output, its exit status and the model
    directory it leaves. *)
Record Finished : Type := mkFinished {
  stdout : option Printed;
  exit_status : Z;
  files_left : Files
}.

Module FaceRecognitionServiceMain.
Section Main.
Context (W : World).

(** [json.load] of the students file named on the command line. *)
Context (load_students : string → Exc (list Student)).

(** [main] of [face_recognition_service.py]; [argv] is [sys.argv]. The
    usage messages go to [sys.stderr]; [sys.exit] is not caught by
    [except Exception]. The model directory is taken to be creatable. *)
Definition main (argv : list string) (fs : Files) : Finished :=
  match argv with
  | _ :: command :: args =>
      if String.eqb command "train" then
        match args with
        | students_json :: _ =>
            match load_students students_json with
            | Ok students_data =>
                let '(_, fs', result) :=
                  FaceRecognitionService.main_train W fs students_data in
                {| stdout := Some (PrintedTrain result); exit_status := 0;
                   files_left := fs' |}
            | Raise e =>
                {| stdout := Some (PrintedError ("Error: " +:+ e));
                   exit_status := 1; files_left := fs |}
            end
        | [] => {| stdout := None; exit_status := 1; files_left := fs |}
        end
      else if String.eqb command "recognize" then
        match args with
        | image_path :: _ =>
            {| stdout :=
                 Some (PrintedRecognize
                         (FaceRecognitionService.main_recognize W fs
                            image_path));
               exit_status := 0; files_left := fs |}
        | [] => {| stdout := None; exit_status := 1; files_left := fs |}
        end
      else {| stdout := None; exit_status := 1; files_left := fs |}
  | _ => {| stdout := None; exit_status := 1; files_left := fs |}
  end.

End Main.
End FaceRecognitionServiceMain.

Module RealTimeRecognitionMain.
Section Main.
Context (W : World).

(** [main] of [realtime_face_recognition.py]. *)
Definition main (argv : list string) (fs : Files) : Finished :=
  match argv with
  | _ :: frame_path :: _ =>
      {| stdout :=
           Some (PrintedRecognize (RealTimeRecognition.main W fs frame_path));
         exit_status := 0; files_left := fs |}
  | _ =>
      {| stdout :=
           Some (PrintedRecognize (failure "Usage: recognize <frame_path>"));
         exit_status := 1; files_left := fs |}
  end.

End Main.
End RealTimeRecognitionMain.

(** ** Further vocabulary *)

Fixpoint has_backslash (s : string) : bool :=
  match s with
  | EmptyString => false
  | String c rest => Ascii.eqb c "\"%char || has_backslash rest
  end.

(** The descriptor the embedding path enrolls for a record: that of the
    first face located in its image. *)
Definition enrolled_encoding (W : World) (student : Student)
  : option Encoding :=
  match _normalize_path (st_imagePath student) with
  | Some p =>
      if truthy p && path_exists W p then
        match locate_and_encode W p with
        | Ok ((_, encoding) :: _) => Some encoding
        | _ => None
        end
      else None
  | None => None
  end.

(** The patch the classifier path enrolls for a record: cut from its image
    at the detected rectangle of largest area. *)
Definition enrolled_patch (W : World) (student : Student) : option Patch :=
  match _normalize_path (st_imagePath student) with
  | Some p =>
      if truthy p && path_exists W p && imread_ok W p
         && FaceRecognitionService.cascade_loaded W then
        match detectMultiScale W p with
        | r :: rest => Some (p, max_by_area r rest)
        | [] => None
        end
      else None
  | None => None
  end.

(** The identity record that a batch leaves under a label: that of the
    last record of the batch which carries the label. *)
Definition last_with_label (l : Z) (students : list Student)
  : option StudentInfo :=
  student_info <$> last (filter (λ s, st_labelId s = l) students).

(** A result that names nobody. *)
Definition is_unknown (r : MatchResult) : Prop :=
  labelId r = (-1)%Z ∧ name r = "Unknown" ∧ department r = "".

(** ** More concrete inputs *)

Module Scenario.

(** A second record under Alice's label, photographed as Bob. *)
Definition alicia : Student :=
  {| st_id := "S7"; st_name := "Alicia"; st_department := "Math";
     st_imagePath := Some "photos/bob.jpg"; st_labelId := 1 |}.

(** The encodings file cannot be opened for writing. *)
Definition encodings_locked (f : ModelFile) : bool :=
  match f with
  | EncodingsPkl => false
  | _ => true
  end.

Definition read_only_world : World := Demo.world true encodings_locked.

(** The students file of the demo: one readable batch. *)
Definition load_students (file : string) : Exc (list Student) :=
  if String.eqb file "students.json" then Ok [Demo.alice; Demo.bob]
  else Raise "No such file or directory".

(** A gallery whose only label has no identity record. *)
Definition gallery_orphan : Gallery :=
  {| known_encodings := [[0%Q]]; known_labels := [9%Z];
     student_data := ∅; recognizer := None |}.


(** The classifier backend with no cascade file anywhere. *)
Definition no_cascade_world : World :=
  {| FACE_RECOGNITION_AVAILABLE := false;
     path_exists := Demo.on_disk;
     writable := Demo.all_writable;
     locate_and_encode := Demo.faces_of;
     norm_diff := Demo.distance;
     cv2_face_available := true;
     imread_ok := λ _, true;
     cascade_in_model_dir := (false, false);
     cascade_fallbacks := [(false, false); (false, false)];
     detectMultiScale := Demo.rects_of;
     predict := Demo.score |}.

End Scenario.

(** A result that names an enrolled identity of the mapping [sd], with a
    confidence above one half. *)
Definition names_identity (sd : gmap Z StudentInfo) (r : MatchResult)
  : Prop :=
  ∃ s, sd !! labelId r = Some s ∧ name r = si_name s ∧
       department r = si_department s ∧ (1 # 2 < confidence r)%Q.

(** A result of the frame recogniser that carries an enrolled label: the
    name and department are those of the identity record when there is
    one, and the defaults otherwise. *)
Definition carries_label (g : Gallery) (r : MatchResult) : Prop :=
  (1 # 2 < confidence r)%Q ∧
  (labelId r ∈ known_labels g ∨ is_Some (student_data g !! labelId r)) ∧
  name r = default "Unknown" (si_name <$> student_data g !! labelId r) ∧
  department r = default "" (si_department <$> student_data g !! labelId r).

(** ** The arithmetic of the matcher on binary64

    The two lines of the loop body that compute with floats, on the
    kernel's binary64 numbers: they show where the exact rationals of the
    embedding above and the program part. *)

Module Binary64.

(** [confidence = 1 - face_distances[best_match_index]]. *)
Definition confidence_of (d : float) : float := (1 - d)%float.

(** [matches[best_match_index] and confidence > 0.5], where
    [matches[i]] is [face_distances[i] <= 0.6]; the literals are the
    binary64 values nearest to 0.6 and 0.5. *)
Definition accepts (d : float) : bool :=
  ((d <=? 0x1.3333333333333p-1) && (0x1p-1 <? confidence_of d))%float.

End Binary64.


(** ** Persistence with unreadable files

    [FaceRecognitionService._save_model], [_load_model] and
    [RealTimeRecognition.load_model] once more, on a model directory whose
    files may also be unreadable (truncated or corrupt), with writes that
    may fail after the file has been opened. On whole files and failing
    opens they are the definitions above. *)

Module Persistence.

Inductive Stored (A : Type) : Type :=
| Missing
| Whole (content : A)
| Unreadable.
Arguments Missing {A}.
Arguments Whole {A} content.
Arguments Unreadable {A}.

Record Disk : Type := mkDisk {
  encodings_file : Stored (list Encoding);
  labels_file : Stored LabelsPickle;
  model_file : Stored Recognizer
}.

(** [os.path.exists]. *)
Definition present {A : Type} (f : Stored A) : bool :=
  match f with
  | Missing => false
  | _ => true
  end.

(** [pickle.load] of an open file ([recognizer.read] for the model). *)
Definition read {A : Type} (f : Stored A) : Exc A :=
  match f with
  | Whole content => Ok content
  | _ => Raise "Ran out of input"
  end.

(** How [with open(path, 'wb') as f: pickle.dump(obj, f)] ends: the file
    is written; [open] raises and the file stays as it was; or [open]
    has truncated the file and the dump raises. *)
Inductive WriteOutcome : Type := Written | OpenFails | DumpFails.

Definition write {A : Type} (outcome : WriteOutcome) (obj : A)
    (old : Stored A) : Stored A * bool :=
  match outcome with
  | Written => (Whole obj, true)
  | OpenFails => (old, false)
  | DumpFails => (Unreadable, false)
  end.

Section Service.
Context (io : ModelFile → WriteOutcome).

(** The first exception ends the method; it is printed and swallowed. *)
Definition _save_model (g : Gallery) (d : Disk) : Disk :=
  let '(encodings, ok) :=
    write (io EncodingsPkl) (known_encodings g) (encodings_file d) in
  let d1 := {| encodings_file := encodings; labels_file := labels_file d;
               model_file := model_file d |} in
  if ok then
    let '(labels, _) :=
      write (io LabelsPkl)
        (EmbeddingLabels (known_labels g) (student_data g))
        (labels_file d1) in
    {| encodings_file := encodings_file d1; labels_file := labels;
       model_file := model_file d1 |}
  else d1.

End Service.

(** [self.known_encodings] is assigned before [labels.pkl] is read; any
    exception is printed and the method returns [False]. *)
Definition _load_model (g : Gallery) (d : Disk) : Gallery * bool :=
  if present (encodings_file d) && present (labels_file d) then
    match read (encodings_file d) with
    | Ok encodings =>
        let g1 := {| known_encodings := encodings;
                     known_labels := known_labels g;
                     student_data := student_data g;
                     recognizer := recognizer g |} in
        match read (labels_file d) with
        | Ok data =>
            ({| known_encodings := known_encodings g1;
                known_labels := get_labels data;
                student_data := get_student_data data;
                recognizer := recognizer g1 |}, true)
        | Raise _ => (g1, false)
        end
    | Raise _ => (g, false)
    end
  else (g, false).

Section RealTime.
Context (W : World).

(** Nothing on the way from [main] catches what [pickle.load] or
    [recognizer.read] raise; only [ImportError] is caught. *)
Definition load_model (g : Gallery) (d : Disk) : Exc Gallery :=
  if FACE_RECOGNITION_AVAILABLE W then
    if present (encodings_file d) && present (labels_file d) then
      encodings ← read (encodings_file d);
      data ← read (labels_file d);
      Ok {| known_encodings := encodings;
            known_labels := get_labels data;
            student_data := get_student_data data;
            recognizer := recognizer g |}
    else Ok g
  else
    if present (model_file d) && present (labels_file d) then
      if cv2_face_available W then
        model ← read (model_file d);
        data ← read (labels_file d);
        Ok {| known_encodings := known_encodings g;
              known_labels := known_labels g;
              student_data :=
                match data with
                | ClassifierLabels label_to_student => label_to_student
                | EmbeddingLabels _ _ => ∅
                end;
              recognizer := Some model |}
      else Ok g
    else Ok g.

Definition __init__ (d : Disk) : Exc Gallery := load_model fresh_gallery d.

(** [main] of [realtime_face_recognition.py]: an exception raised by the
    constructor ends the process with a traceback on [sys.stderr], nothing
    on [sys.stdout], and exit status 1. *)
Definition main (argv : list string) (d : Disk) : option Printed * Z :=
  match argv with
  | _ :: frame_path :: _ =>
      match __init__ d with
      | Ok g =>
          (Some (PrintedRecognize
                   (RealTimeRecognition.recognize_frame W g frame_path)),
           0%Z)
      | Raise _ => (None, 1%Z)
      end
  | _ =>
      (Some (PrintedRecognize (failure "Usage: recognize <frame_path>")),
       1%Z)
  end.

End RealTime.

(** The model directory of the definitions above, and its failing opens. *)
Definition stored {A : Type} (f : option A) : Stored A :=
  match f with
  | Some content => Whole content
  | None => Missing
  end.

Definition disk_of (fs : Files) : Disk :=
  {| encodings_file := stored (encodings_path fs);
     labels_file := stored (labels_path fs);
     model_file := stored (model_path fs) |}.

Definition opens_of (W : World) (f : ModelFile) : WriteOutcome :=
  if writable W f then Written else OpenFails.

(** A needed file of the active backend exists and cannot be read. *)
Definition unreadable_store (W : World) (d : Disk) : bool :=
  if FACE_RECOGNITION_AVAILABLE W then
    present (encodings_file d) && present (labels_file d) &&
    match encodings_file d, labels_file d with
    | Whole _, Whole _ => false
    | _, _ => true
    end
  else
    present (model_file d) && present (labels_file d) &&
    cv2_face_available W &&
    match model_file d, labels_file d with
    | Whole _, Whole _ => false
    | _, _ => true
    end.

End Persistence.

(** ** Training with every failure of the final steps

    [train_from_database] once more, on the model directory of
    [Persistence]: [recognizer.train] may raise, and so may each write,
    at [open] or after it. [train_error] gives the text of the exception
    of [recognizer.train] when there is one, [io_error] that of a failed
    write. *)

Module Training.
Section Service.
Context (W : World) (io : ModelFile → Persistence.WriteOutcome)
        (train_error : list Patch → list Z → option string)
        (io_error : ModelFile → string).

Definition _train_with_face_recognition (students_data : list Student)
    (g : Gallery) (d : Persistence.Disk)
  : Gallery * Persistence.Disk * TrainResult :=
  let '(g', trained_count) :=
    FaceRecognitionService.train_loop W students_data (g, 0%nat) in
  if (trained_count =? 0)%nat then
    (g', d, train_failure "No faces found in training images")
  else
    (g', Persistence._save_model io g' d, train_success trained_count).

Definition _train_with_opencv (students_data : list Student)
    (g : Gallery) (d : Persistence.Disk)
  : Gallery * Persistence.Disk * TrainResult :=
  if negb (cv2_face_available W) then
    (g, d, train_failure
       "OpenCV face module not available. Please install opencv-contrib-python: pip install opencv-contrib-python")
  else
    let '(images, labels, label_to_student) :=
      FaceRecognitionService.cv_train_loop W students_data ([], [], ∅) in
    if (length images =? 0)%nat then
      (g, d, train_failure "No faces found in training images")
    else
      match train_error images labels with
      | Some e =>
          (* [recognizer.train] raises *)
          (g, d, train_failure ("OpenCV training error: " +:+ e))
      | None =>
          let '(model, saved) :=
            Persistence.write (io RecognizerPkl) (images, labels)
              (Persistence.model_file d) in
          let d1 :=
            {| Persistence.encodings_file := Persistence.encodings_file d;
               Persistence.labels_file := Persistence.labels_file d;
               Persistence.model_file := model |} in
          if negb saved then
            (* [recognizer.save] raises *)
            (g, d1,
             train_failure
               ("OpenCV training error: " +:+ io_error RecognizerPkl))
          else
            let g1 := {| known_encodings := known_encodings g;
                         known_labels := known_labels g;
                         student_data := label_to_student;
                         recognizer := Some (images, labels) |} in
            let '(labels_pkl, dumped) :=
              Persistence.write (io LabelsPkl)
                (ClassifierLabels label_to_student)
                (Persistence.labels_file d1) in
            let d2 :=
              {| Persistence.encodings_file := Persistence.encodings_file d1;
                 Persistence.labels_file := labels_pkl;
                 Persistence.model_file := Persistence.model_file d1 |} in
            if negb dumped then
              (g1, d2,
               train_failure
                 ("OpenCV training error: " +:+ io_error LabelsPkl))
            else (g1, d2, train_success (length images))
      end.

Definition train_from_database (students_data : list Student)
    (g : Gallery) (d : Persistence.Disk)
  : Gallery * Persistence.Disk * TrainResult :=
  let g0 := FaceRecognitionService.reset g in
  if FACE_RECOGNITION_AVAILABLE W then
    _train_with_face_recognition students_data g0 d
  else
    let '(g', d', result) := _train_with_opencv students_data g0 d in
    if negb (tr_success result) then
      let error_msg := tr_message result in
      if contains "not available" (lower error_msg)
         || contains "cannot import" (lower error_msg)
      then (g', d', train_failure FaceRecognitionService.remediation)
      else (g', d', result)
    else (g', d', result).

End Service.

(** The environment of the definitions above: [recognizer.train] never
    raises, a write fails at [open] or not at all. *)
Definition never_raises (images : list Patch) (labels : list Z)
  : option string := None.

Definition permission_denied (f : ModelFile) : string := "Permission denied".

End Training.

(** ** Training with the library's own face location

    The training loop calls [face_recognition.face_encodings(image)]
    without locations, and the library locates the faces itself; the
    recognisers call [face_locations] first and hand the result over.
    [encode_image] is the first call, kept apart from
    [locate_and_encode]. *)

Module Detector.
Section Training.
Context (W : World) (encode_image : string → Exc (list Encoding)).

Definition train_one (student : Student) (acc : Gallery * nat)
  : Gallery * nat :=
  let '(g, trained_count) := acc in
  let image_path := _normalize_path (st_imagePath student) in
  if image_missing W image_path then acc
  else
    match encode_image (default "" image_path) with
    | Ok (encoding :: _) =>
        (FaceRecognitionService.enroll g encoding student, S trained_count)
    | Ok [] => acc
    | Raise _ => acc
    end.

Fixpoint train_loop (students_data : list Student) (acc : Gallery * nat)
  : Gallery * nat :=
  match students_data with
  | [] => acc
  | student :: rest => train_loop rest (train_one student acc)
  end.

Definition _train_with_face_recognition (students_data : list Student)
    (g : Gallery) (fs : Files) : Gallery * Files * TrainResult :=
  let '(g', trained_count) := train_loop students_data (g, 0%nat) in
  if (trained_count =? 0)%nat then
    (g', fs, train_failure "No faces found in training images")
  else
    (g', FaceRecognitionService._save_model W g' fs,
     train_success trained_count).

(** The classifier branch does not call [face_encodings]. *)
Definition train_from_database (students_data : list Student)
    (g : Gallery) (fs : Files) : Gallery * Files * TrainResult :=
  if FACE_RECOGNITION_AVAILABLE W then
    _train_with_face_recognition students_data
      (FaceRecognitionService.reset g) fs
  else FaceRecognitionService.train_from_database W students_data g fs.

(** Both calls find the same faces, in the same order. *)
Definition same_faces : Prop :=
  ∀ image_path, encode_image image_path = face_encodings W image_path.

End Training.
End Detector.

(** ** Concrete faults *)

Module Faults.

(** The classifier backend with a model file that cannot be written. *)
Definition model_locked (f : ModelFile) : bool :=
  match f with
  | RecognizerPkl => false
  | _ => true
  end.

Definition model_locked_world : World := Demo.world false model_locked.

(** Writes to [labels.pkl] that fail at [open], and after it. *)
Definition labels_open_fails (f : ModelFile) : Persistence.WriteOutcome :=
  match f with
  | LabelsPkl => Persistence.OpenFails
  | _ => Persistence.Written
  end.

Definition labels_dump_fails (f : ModelFile) : Persistence.WriteOutcome :=
  match f with
  | LabelsPkl => Persistence.DumpFails
  | _ => Persistence.Written
  end.

(** The model directory left by a run that enrolled Alice alone. *)
Definition disk_alice : Persistence.Disk := Persistence.disk_of Demo.files_alice.

(** The same with a truncated label file. *)
Definition disk_truncated : Persistence.Disk :=
  {| Persistence.encodings_file := Persistence.Whole [[0%Q]];
     Persistence.labels_file := Persistence.Unreadable;
     Persistence.model_file := Persistence.Missing |}.

(** Writes that all succeed, and a [recognizer.train] that raises. *)
Definition all_written (f : ModelFile) : Persistence.WriteOutcome :=
  Persistence.Written.

Definition train_rejects (images : list Patch) (labels : list Z)
  : option string := Some "labels out of range".

End Faults.

(** * Properties *)

(** ** The model on concrete inputs *)

Example normalize_backslashes :
  _normalize_path (Some "photos\alice.jpg") = Some "photos/alice.jpg".
Proof. reflexivity. Qed.

Example normalize_keeps_empty : _normalize_path (Some "") = Some "".
Proof. reflexivity. Qed.

Example argmin_first_of_ties : argmin [1 # 2; 1 # 4; 3 # 4; 1 # 4] = Ok 1%nat.
Proof. reflexivity. Qed.

Example argmin_empty_raises : ∃ msg, argmin [] = Raise msg.
Proof. by eexists. Qed.

Example max_by_area_first_of_ties :
  max_by_area (0, 0, 4, 9)%Z [(1, 1, 6, 6)%Z; (2, 2, 3, 3)%Z]
    = (0, 0, 4, 9)%Z.
Proof. reflexivity. Qed.

Example lower_contains :
  contains "not available"
    (lower "OpenCV face module NOT Available. Please install") = true.
Proof. reflexivity. Qed.

(** Five records, two of them enrollable: a missing file, a photograph of
    a wall and a record without a path are skipped. *)
Example train_demo_batch :
  FaceRecognitionService.main_train Demo.embedding_world no_files
    [Demo.alice; Demo.ghost; Demo.wall; Demo.bob; Demo.pathless]
  = (Demo.gallery_alice_bob,
     {| encodings_path := Some [[0%Q]; [1%Q]];
        labels_path :=
          Some (EmbeddingLabels [1%Z; 2%Z]
                  {[ 1%Z := Demo.alice_info; 2%Z := Demo.bob_info ]});
        model_path := None |},
     train_success 2).
Proof. by vm_compute. Qed.

(** Two faces in one query image, answered in detection order. *)
Example recognize_demo_pair :
  FaceRecognitionService.recognize_face Demo.embedding_world
    Demo.gallery_alice_bob "photos/pair.jpg"
  = found
      [ {| labelId := 2; name := "Bob"; department := "EE";
           confidence := 1 - Qabs (1 - 1); location := Demo.box |};
        {| labelId := 1; name := "Alice"; department := "CS";
           confidence := 1 - Qabs (0 - 0); location := Demo.box2 |} ].
Proof. reflexivity. Qed.

(** A query at distance 1/2 of its nearest neighbour lies inside the 0.6
    band but its confidence does not exceed 0.5. *)
Example recognize_demo_stranger :
  FaceRecognitionService.recognize_face Demo.embedding_world
    Demo.gallery_alice_bob "photos/stranger.jpg"
  = found [unknown_result (1 - Qabs (1 - (3 # 2))) Demo.box].
Proof. reflexivity. Qed.

Example recognize_demo_unreadable :
  FaceRecognitionService.recognize_face Demo.embedding_world
    Demo.gallery_alice_bob "photos/broken.jpg"
  = failure "Recognition error: cannot identify image file".
Proof. reflexivity. Qed.

(** The classifier path on the same photographs. *)
Example train_demo_classifier :
  snd (FaceRecognitionService.main_train Demo.classifier_world no_files
         [Demo.alice; Demo.pair; Demo.ghost; Demo.wall])
  = train_success 2.
Proof. by vm_compute. Qed.

Example train_demo_no_backend :
  tr_message
    (snd (FaceRecognitionService.main_train
            {| FACE_RECOGNITION_AVAILABLE := false;
               path_exists := Demo.on_disk;
               writable := Demo.all_writable;
               locate_and_encode := Demo.faces_of;
               norm_diff := Demo.distance;
               cv2_face_available := false;
               imread_ok := λ _, true;
               cascade_in_model_dir := (true, true);
               cascade_fallbacks := [];
               detectMultiScale := Demo.rects_of;
               predict := Demo.score |}
            no_files [Demo.alice]))
  = FaceRecognitionService.remediation.
Proof. by vm_compute. Qed.

(** ** [np.argmin] *)

Lemma Qgtb_true (a b : Q) : Qgtb a b = true ↔ (b < a)%Q.
Proof.
  unfold Qgtb. rewrite negb_true_iff, <- not_true_iff_false, Qle_bool_iff.
  split; [apply Qnot_le_lt | apply Qlt_not_le].
Qed.

Lemma Qgtb_false (a b : Q) : Qgtb a b = false ↔ (a <= b)%Q.
Proof.
  unfold Qgtb. rewrite negb_false_iff. apply Qle_bool_iff.
Qed.

Lemma argmin_from_first_min (l pre : list Q) (best_i : nat) (best : Q) :
  first_min pre best_i best →
  ∃ m, first_min (pre ++ l) (argmin_from best_i best (length pre) l) m.
Proof.
  revert pre best_i best.
  induction l as [|d rest IH]; intros pre best_i best Hpre; simpl.
  - exists best. by rewrite app_nil_r.
  - destruct Hpre as (Hat & Hmin & Hfirst).
    assert (Hbi : (best_i < length pre)%nat) by (eapply lookup_lt_Some; eauto).
    replace (pre ++ d :: rest) with ((pre ++ [d]) ++ rest)
      by (by rewrite <- app_assoc).
    replace (S (length pre)) with (length (pre ++ [d]))
      by (rewrite length_app; simpl; lia).
    destruct (Qgtb best d) eqn:Hcmp; apply IH; repeat split.
    + rewrite lookup_app_r by lia. by rewrite Nat.sub_diag.
    + apply Qgtb_true in Hcmp. intros x Hx.
      apply elem_of_app in Hx as [Hx | Hx].
      * apply Hmin in Hx. lra.
      * apply list_elem_of_singleton in Hx. subst. lra.
    + apply Qgtb_true in Hcmp. intros k x Hk Hkx.
      rewrite lookup_app_l in Hkx by lia.
      assert (x ∈ pre) as Hx by (eapply list_elem_of_lookup_2; eauto).
      apply Hmin in Hx. lra.
    + rewrite lookup_app_l by lia. done.
    + apply Qgtb_false in Hcmp. intros x Hx.
      apply elem_of_app in Hx as [Hx | Hx].
      * by apply Hmin.
      * apply list_elem_of_singleton in Hx. by subst.
    + intros k x Hk Hkx. rewrite lookup_app_l in Hkx by lia. eauto.
Qed.

Lemma argmin_first_min (l : list Q) :
  l ≠ [] → ∃ i m, argmin l = Ok i ∧ first_min l i m.
Proof.
  destruct l as [|d rest]; [done | intros _].
  destruct (argmin_from_first_min rest [d] 0 d) as [m Hm].
  - repeat split; [| intros k x Hk; lia].
    intros x Hx. apply list_elem_of_singleton in Hx. subst. lra.
  - exists (argmin_from 0 d 1 rest), m. split; [done | exact Hm].
Qed.

(** ** The embedding matcher *)

Lemma lookup_map {A B : Type} (f : A → B) (l : list A) (i : nat) :
  map f l !! i = f <$> l !! i.
Proof. exact (list_lookup_fmap f l i). Qed.

Lemma index_lookup {A : Type} (l : list A) (i : nat) (a : A) :
  l !! i = Some a → index l i = Ok a.
Proof. unfold index. by intros ->. Qed.

Lemma acceptedb_spec (d : Q) : acceptedb d = true ↔ accepted d.
Proof.
  unfold acceptedb, accepted.
  by rewrite andb_true_iff, Qle_bool_iff, Qgtb_true.
Qed.


Lemma nearest_exists (W : World) (g : Gallery) (q : Encoding) :
  known_encodings g ≠ [] → gallery_wf g →
  ∃ i d l s, argmin (face_distance W (known_encodings g) q) = Ok i ∧
             nearest W g q i d l s.
Proof.
  intros Hne [Hlen Hsd].
  destruct (argmin_first_min (face_distance W (known_encodings g) q))
    as (i & d & Harg & Hmin).
  { unfold face_distance. by destruct (known_encodings g). }
  assert (Hi : (i < length (known_labels g))%nat).
  { rewrite Hlen. destruct Hmin as [Hat _].
    apply lookup_lt_Some in Hat. unfold face_distance in Hat.
    by rewrite length_map in Hat. }
  destruct (lookup_lt_is_Some_2 _ _ Hi) as [l Hl].
  destruct (Hsd l) as [s Hs]; [by eapply list_elem_of_lookup_2 |].
  by exists i, d, l, s.
Qed.

Lemma first_min_unique (ds : list Q) (i i' : nat) (d d' : Q) :
  first_min ds i d → first_min ds i' d' → i = i' ∧ d = d'.
Proof.
  intros (Hat & Hmin & Hfirst) (Hat' & Hmin' & Hfirst').
  assert (i = i') as <-; [| by simplify_eq].
  destruct (Nat.lt_trichotomy i i') as [Hlt | [Heq | Hgt]]; [| done |].
  - pose proof (Hfirst' _ _ Hlt Hat).
    assert (d' ∈ ds) as Hin by (by eapply list_elem_of_lookup_2).
    apply Hmin in Hin. lra.
  - pose proof (Hfirst _ _ Hgt Hat').
    assert (d ∈ ds) as Hin by (by eapply list_elem_of_lookup_2).
    apply Hmin' in Hin. lra.
Qed.

Lemma nearest_unique (W : World) (g : Gallery) (q : Encoding)
    (i i' : nat) (d d' : Q) (l l' : Z) (s s' : StudentInfo) :
  nearest W g q i d l s → nearest W g q i' d' l' s' →
  i = i' ∧ d = d' ∧ l = l' ∧ s = s'.
Proof.
  intros [Hmin [Hl Hs]] [Hmin' [Hl' Hs']].
  destruct (first_min_unique _ _ _ _ _ Hmin Hmin') as [<- <-].
  by simplify_eq.
Qed.

Lemma first_min_argmin (ds : list Q) (i : nat) (d : Q) :
  first_min ds i d → argmin ds = Ok i.
Proof.
  intros Hmin.
  destruct (argmin_first_min ds) as (i' & d' & Harg & Hmin').
  { intros ->. by destruct Hmin as [? _]. }
  by destruct (first_min_unique _ _ _ _ _ Hmin Hmin') as [-> _].
Qed.

(** With [Hat : face_distances !! i = Some d], evaluate the two indexings
    [face_distances[best_match_index]] and [matches[best_match_index]] of the
    loop body. *)
Ltac read_nearest Hat :=
  match type of Hat with
  | _ !! ?i = Some ?d =>
      rewrite (index_lookup _ _ _ Hat); simpl;
      unfold compare_faces;
      rewrite (index_lookup (map _ _) i (Qle_bool d (6 # 10)))
        by (by rewrite lookup_map, Hat);
      simpl
  end.

(** What the service's loop body returns, in terms of the nearest entry. *)
Lemma service_match_face (W : World) (g : Gallery) (loc : Location)
    (q : Encoding) (i : nat) (d : Q) (l : Z) (s : StudentInfo) :
  nearest W g q i d l s →
  FaceRecognitionService.match_face W g (loc, q) =
    Ok (if acceptedb d
        then {| labelId := l; name := si_name s;
                department := si_department s;
                confidence := 1 - d; location := loc |}
        else unknown_result (1 - d) loc).
Proof.
  intros [(Hat & Hmin & Hfirst) [Hl Hs]].
  assert (argmin (face_distance W (known_encodings g) q) = Ok i) as Harg
    by (by apply (first_min_argmin _ i d)).
  unfold FaceRecognitionService.match_face.
  rewrite Harg. simpl.
  read_nearest Hat.
  fold (acceptedb d). destruct (acceptedb d); [| done].
  rewrite (index_lookup _ _ _ Hl). simpl. by rewrite Hs.
Qed.

(** The per-frame loop body of [RealTimeRecognition] agrees with the
    service's on a well-formed gallery. *)
Lemma realtime_match_face (W : World) (g : Gallery) (loc : Location)
    (q : Encoding) (i : nat) (d : Q) (l : Z) (s : StudentInfo) :
  nearest W g q i d l s →
  RealTimeRecognition.match_face W g (loc, q) =
    Ok (if acceptedb d
        then {| labelId := l; name := si_name s;
                department := si_department s;
                confidence := 1 - d; location := loc |}
        else unknown_result (1 - d) loc).
Proof.
  intros [Hmin [Hl Hs]].
  pose proof (first_min_argmin _ _ _ Hmin) as Harg.
  destruct Hmin as (Hat & _).
  unfold RealTimeRecognition.match_face.
  rewrite Harg. simpl.
  read_nearest Hat. fold (acceptedb d). destruct (acceptedb d); [| done].
  rewrite (index_lookup _ _ _ Hl). simpl. by rewrite Hs.
Qed.



(** ** Training, embedding path *)

Lemma truthy_spec (s : string) : truthy s = true ↔ s ≠ "".
Proof. destruct s; simpl; split; congruence. Qed.

Lemma enrollableb_spec (W : World) (student : Student) :
  enrollableb W student = true ↔ enrollable W student.
Proof.
  unfold enrollableb, enrollable. split.
  - destruct (_normalize_path (st_imagePath student)) as [p|]; [| done].
    rewrite !andb_true_iff, truthy_spec. intros [[Hp Hex] Hfaces].
    destruct (locate_and_encode W p) as [|[|f faces]] eqn:Hloc; try done.
    by exists p, (f :: faces).
  - intros (p & faces & -> & Hp & Hex & -> & Hne).
    rewrite !andb_true_iff, truthy_spec.
    by destruct faces.
Qed.

#[global] Instance enrollable_dec (W : World) (student : Student) :
  Decision (enrollable W student).
Proof.
  destruct (enrollableb W student) eqn:Hb.
  - left. by apply enrollableb_spec.
  - right. rewrite <- enrollableb_spec. congruence.
Defined.

(** One iteration enrolls the first located face of an enrollable record
    and leaves the accumulator alone otherwise. *)
Lemma train_one_enrollable (W : World) (student : Student) (g : Gallery)
    (n : nat) :
  enrollable W student →
  ∃ p loc encoding rest,
    _normalize_path (st_imagePath student) = Some p ∧
    locate_and_encode W p = Ok ((loc, encoding) :: rest) ∧
    FaceRecognitionService.train_one W student (g, n) =
      (FaceRecognitionService.enroll g encoding student, S n).
Proof.
  intros (p & faces & Hp & Hne & Hex & Hloc & Hfaces).
  destruct faces as [|[loc encoding] rest]; [done |].
  exists p, loc, encoding, rest. repeat split; try done.
  unfold FaceRecognitionService.train_one, image_missing, face_encodings.
  rewrite Hp. apply truthy_spec in Hne. rewrite Hne, Hex. simpl.
  by rewrite Hloc.
Qed.

Lemma train_one_skip (W : World) (student : Student) (acc : Gallery * nat) :
  ¬ enrollable W student →
  FaceRecognitionService.train_one W student acc = acc.
Proof.
  rewrite <- enrollableb_spec. intros Hb. destruct acc as [g n].
  unfold FaceRecognitionService.train_one, image_missing, face_encodings.
  unfold enrollableb in Hb.
  destruct (_normalize_path (st_imagePath student)) as [p|]; [| done].
  destruct (truthy p); [| done].
  destruct (path_exists W p); [| done]. simpl in *.
  by destruct (locate_and_encode W p) as [|[|f faces]].
Qed.

Lemma train_loop_cons (W : World) (student : Student)
    (rest : list Student) (acc : Gallery * nat) :
  FaceRecognitionService.train_loop W (student :: rest) acc =
    FaceRecognitionService.train_loop W rest
      (FaceRecognitionService.train_one W student acc).
Proof. reflexivity. Qed.

Lemma train_loop_count (W : World) (students : list Student) (g : Gallery)
    (n : nat) :
  snd (FaceRecognitionService.train_loop W students (g, n)) =
    (n + length (filter (enrollable W) students))%nat.
Proof.
  revert g n. induction students as [|student rest IH]; intros g n.
  - simpl. lia.
  - rewrite train_loop_cons.
    destruct (decide (enrollable W student)) as [Hen | Hen].
    + destruct (train_one_enrollable W student g n Hen)
        as (p & loc & e & more & _ & _ & ->).
      rewrite IH, filter_cons_True by done. simpl. lia.
    + rewrite train_one_skip, IH, filter_cons_False by done. done.
Qed.


Lemma filter_nil_Forall {A : Type} (P : A → Prop) `{!∀ x, Decision (P x)}
    (l : list A) :
  filter P l = [] ↔ Forall (λ x, ¬ P x) l.
Proof.
  induction l as [|x l IH]; [by split |].
  destruct (decide (P x)) as [HP | HP].
  - rewrite filter_cons_True by done. split; [done |].
    intros Hall. by inversion Hall.
  - rewrite filter_cons_False by done. rewrite IH. split.
    + by constructor.
    + intros Hall. by inversion Hall.
Qed.

(** Training keeps the gallery well formed. *)
Lemma enroll_wf (g : Gallery) (encoding : Encoding) (student : Student) :
  gallery_wf g → gallery_wf (FaceRecognitionService.enroll g encoding student).
Proof.
  intros [Hlen Hsd]. split; simpl.
  - rewrite !length_app. simpl. lia.
  - intros l Hl. apply elem_of_app in Hl as [Hl | Hl].
    + destruct (decide (st_labelId student = l)) as [-> | Hne].
      * rewrite lookup_insert_eq. eauto.
      * rewrite lookup_insert_ne by done. by apply Hsd.
    + apply list_elem_of_singleton in Hl as ->.
      rewrite lookup_insert_eq. eauto.
Qed.

Lemma train_loop_wf (W : World) (students : list Student) (g : Gallery)
    (n : nat) :
  gallery_wf g →
  gallery_wf (fst (FaceRecognitionService.train_loop W students (g, n))).
Proof.
  revert g n. induction students as [|student rest IH]; intros g n Hwf.
  - done.
  - rewrite train_loop_cons.
    destruct (decide (enrollable W student)) as [Hen | Hen].
    + destruct (train_one_enrollable W student g n Hen)
        as (p & loc & e & more & _ & _ & ->).
      apply IH. by apply enroll_wf.
    + rewrite train_one_skip by done. by apply IH.
Qed.

Lemma reset_wf (g : Gallery) : gallery_wf (FaceRecognitionService.reset g).
Proof. split; [done |]. simpl. intros l Hl. by apply elem_of_nil in Hl. Qed.

(** The embedding path of [train_from_database], spelled out. *)
Lemma train_from_database_embedding (W : World) (students : list Student)
    (g : Gallery) (fs : Files) :
  FACE_RECOGNITION_AVAILABLE W = true →
  FaceRecognitionService.train_from_database W students g fs =
    let g' := fst (FaceRecognitionService.train_loop W students
                     (FaceRecognitionService.reset g, 0%nat)) in
    let n := length (filter (enrollable W) students) in
    if (n =? 0)%nat
    then (g', fs, train_failure "No faces found in training images")
    else (g', FaceRecognitionService._save_model W g' fs, train_success n).
Proof.
  intros HFRA.
  unfold FaceRecognitionService.train_from_database,
    FaceRecognitionService.train_from_database_routed,
    FaceRecognitionService._train_with_face_recognition.
  rewrite HFRA. simpl.
  pose proof (train_loop_count W students
                (FaceRecognitionService.reset g) 0) as Hcount.
  destruct (FaceRecognitionService.train_loop W students
              (FaceRecognitionService.reset g, 0%nat)) as [g' n].
  simpl in *. by subst n.
Qed.

Lemma train_from_database_wf (W : World) (students : list Student)
    (g : Gallery) (fs : Files) :
  FACE_RECOGNITION_AVAILABLE W = true →
  gallery_wf
    (fst (fst (FaceRecognitionService.train_from_database W students g fs))).
Proof.
  intros HFRA. rewrite train_from_database_embedding by done. simpl.
  pose proof (train_loop_wf W students (FaceRecognitionService.reset g) 0
                (reset_wf g)).
  by destruct (length (filter (enrollable W) students) =? 0)%nat.
Qed.


(** ** Training, classifier path *)

Lemma nonempty_spec {A : Type} (l : list A) : nonempty l = true ↔ l ≠ [].
Proof. destruct l; simpl; split; congruence. Qed.

Lemma cv_enrollableb_spec (W : World) (student : Student) :
  cv_enrollableb W student = true ↔ cv_enrollable W student.
Proof.
  unfold cv_enrollableb, cv_enrollable. split.
  - destruct (_normalize_path (st_imagePath student)) as [p|]; [| done].
    rewrite !andb_true_iff, truthy_spec, nonempty_spec.
    intros [[[[Hp Hex] Hread] Hcas] Hfaces]. by exists p.
  - intros (p & -> & Hp & Hex & Hread & Hcas & Hfaces).
    by rewrite !andb_true_iff, truthy_spec, nonempty_spec.
Qed.

Lemma cv_train_one_skip (W : World) (student : Student)
    (acc : FaceRecognitionService.CvAcc) :
  ¬ cv_enrollable W student →
  FaceRecognitionService.cv_train_one W student acc = acc.
Proof.
  rewrite <- cv_enrollableb_spec. intros Hb.
  destruct acc as [[images labels] label_to_student].
  unfold FaceRecognitionService.cv_train_one, image_missing,
    FaceRecognitionService.detect.
  unfold cv_enrollableb in Hb.
  destruct (_normalize_path (st_imagePath student)) as [p|]; [| done].
  simpl in *.
  destruct (truthy p); [| done].
  destruct (path_exists W p); [| done].
  destruct (imread_ok W p); simpl in *; [| done].
  destruct (FaceRecognitionService.cascade_loaded W); simpl in *; [| done].
  by destruct (detectMultiScale W p).
Qed.

Lemma cv_train_loop_nothing (W : World) (students : list Student)
    (acc : FaceRecognitionService.CvAcc) :
  Forall (λ student, ¬ cv_enrollable W student) students →
  FaceRecognitionService.cv_train_loop W students acc = acc.
Proof.
  induction 1 as [|student rest Hen _ IH]; [done |].
  change (FaceRecognitionService.cv_train_loop W (student :: rest) acc)
    with (FaceRecognitionService.cv_train_loop W rest
            (FaceRecognitionService.cv_train_one W student acc)).
  by rewrite cv_train_one_skip.
Qed.


(** ** Whole-batch failure *)

(** C3. When no record of the batch can be enrolled by the active backend,
    [train_from_database] fails with the message
    "No faces found in training images", the model directory is left as it
    was, and a service started afresh answers "Model not trained" for any
    existing image. *)
Theorem C3_no_faces_nothing_persisted (W : World) (students : list Student)
    (g : Gallery) (fs : Files) :
  (FACE_RECOGNITION_AVAILABLE W = true ∧
     Forall (λ student, ¬ enrollable W student) students) ∨
  (FACE_RECOGNITION_AVAILABLE W = false ∧ cv2_face_available W = true ∧
     Forall (λ student, ¬ cv_enrollable W student) students) →
  ∃ g' fs' r,
    FaceRecognitionService.train_from_database W students g fs = (g', fs', r) ∧
    tr_success r = false ∧
    tr_message r = "No faces found in training images" ∧
    fs' = fs ∧
    (∀ image_path, path_exists W image_path = true →
       FaceRecognitionService.main_recognize W fs' image_path =
         failure "Model not trained") ∧
    (∀ frame_path,
       RealTimeRecognition.main W fs' frame_path =
         RealTimeRecognition.main W fs frame_path).
Proof.
  assert (Hfresh : ∀ fs0 image_path, path_exists W image_path = true →
            FaceRecognitionService.main_recognize W fs0 image_path =
              failure "Model not trained").
  { intros fs0 image_path Hex.
    unfold FaceRecognitionService.main_recognize,
      FaceRecognitionService.recognize_face,
      FaceRecognitionService.recognize_face_routed.
    rewrite Hex. simpl. by rewrite andb_false_r. }
  intros [[HFRA Hnone] | (HFRA & Hcv & Hnone)].
  - rewrite train_from_database_embedding by done. simpl.
    rewrite (proj2 (filter_nil_Forall (enrollable W) students) Hnone).
    simpl.
    eexists _, fs, _. split; [reflexivity |]. split_and!; auto.
  - unfold FaceRecognitionService.train_from_database,
      FaceRecognitionService.train_from_database_routed,
      FaceRecognitionService._train_with_opencv.
    rewrite HFRA, Hcv, cv_train_loop_nothing by done. simpl.
    eexists _, fs, _. split; [reflexivity |]. split_and!; auto.
Qed.

Lemma C3_no_faces_nothing_persisted_witness :
  ∃ g' fs' r,
    FaceRecognitionService.train_from_database Demo.embedding_world
      [Demo.ghost; Demo.wall; Demo.pathless] Demo.gallery_alice no_files
      = (g', fs', r) ∧
    tr_success r = false ∧
    tr_message r = "No faces found in training images" ∧
    fs' = no_files ∧
    (∀ image_path, path_exists Demo.embedding_world image_path = true →
       FaceRecognitionService.main_recognize Demo.embedding_world fs'
         image_path = failure "Model not trained") ∧
    (∀ frame_path,
       RealTimeRecognition.main Demo.embedding_world fs' frame_path =
         RealTimeRecognition.main Demo.embedding_world no_files frame_path).
Proof.
  apply (C3_no_faces_nothing_persisted Demo.embedding_world).
  left. split; [reflexivity |].
  repeat constructor; rewrite <- enrollableb_spec; vm_compute; discriminate.
Defined.

(** ** The gallery is cleared on entry *)



(** ** Which face of a training image is enrolled *)

Lemma max_by_area_first_max (faces pre : list Rect) (best_i : nat)
    (best : Rect) :
  first_max_area pre best_i best →
  ∃ i, first_max_area (pre ++ faces) i (max_by_area best faces).
Proof.
  revert pre best_i best.
  induction faces as [|r rest IH]; intros pre best_i best Hpre; simpl.
  - exists best_i. by rewrite app_nil_r.
  - destruct Hpre as (Hat & Hmax & Hfirst).
    assert (Hbi : (best_i < length pre)%nat) by (eapply lookup_lt_Some; eauto).
    replace (pre ++ r :: rest) with ((pre ++ [r]) ++ rest)
      by (by rewrite <- app_assoc).
    destruct (area best <? area r)%Z eqn:Hcmp.
    + apply Z.ltb_lt in Hcmp. apply (IH (pre ++ [r]) (length pre)).
      repeat split.
      * rewrite lookup_app_r by lia. by rewrite Nat.sub_diag.
      * intros x Hx. apply elem_of_app in Hx as [Hx | Hx].
        -- apply Hmax in Hx. lia.
        -- apply list_elem_of_singleton in Hx. subst. lia.
      * intros k x Hk Hkx. rewrite lookup_app_l in Hkx by lia.
        assert (x ∈ pre) as Hx by (eapply list_elem_of_lookup_2; eauto).
        apply Hmax in Hx. lia.
    + apply Z.ltb_ge in Hcmp. apply (IH (pre ++ [r]) best_i).
      repeat split.
      * by rewrite lookup_app_l by lia.
      * intros x Hx. apply elem_of_app in Hx as [Hx | Hx].
        -- by apply Hmax.
        -- apply list_elem_of_singleton in Hx. by subst.
      * intros k x Hk Hkx. rewrite lookup_app_l in Hkx by lia. eauto.
Qed.

Lemma max_by_area_spec (r : Rect) (rest : list Rect) :
  ∃ i, first_max_area (r :: rest) i (max_by_area r rest).
Proof.
  apply (max_by_area_first_max rest [r] 0 r).
  repeat split; [| intros k x Hk; lia].
  intros x Hx. apply list_elem_of_singleton in Hx. subst. lia.
Qed.

(** C6, as stated, fails on the classifier path: of the two faces located
    in the demo photograph the second, larger one is enrolled. *)
Lemma C6_classifier_enrolls_largest_not_first :
  detectMultiScale Demo.classifier_world "photos/pair.jpg" =
    [(0, 0, 10, 10)%Z; (20, 20, 50, 50)%Z] ∧
  FaceRecognitionService.cv_train_one Demo.classifier_world Demo.pair
    ([], [], ∅) =
    ([("photos/pair.jpg", (20, 20, 50, 50)%Z)], [3%Z],
     {[ 3%Z := student_info Demo.pair ]}) ∧
  ("photos/pair.jpg", (20, 20, 50, 50)%Z)
    ≠ (("photos/pair.jpg", (0, 0, 10, 10)%Z) : Patch).
Proof. split; [reflexivity |]. split; [by vm_compute | discriminate]. Qed.

(** C6, amended. For a training record whose image exists, the embedding
    path enrolls exactly the descriptor of the first located face and
    ignores the others; the classifier path enrolls exactly one patch, cut
    at the located rectangle of largest area (the earliest one among
    rectangles of equal area). *)
Theorem C6_enrolled_face (W : World) (student : Student) (p : string) :
  _normalize_path (st_imagePath student) = Some p → p ≠ "" →
  path_exists W p = true →
  (∀ g n loc encoding rest,
     locate_and_encode W p = Ok ((loc, encoding) :: rest) →
     FaceRecognitionService.train_one W student (g, n) =
       (FaceRecognitionService.enroll g encoding student, S n)) ∧
  (∀ images labels label_to_student r rest,
     imread_ok W p = true →
     FaceRecognitionService.cascade_loaded W = true →
     detectMultiScale W p = r :: rest →
     ∃ i largest,
       first_max_area (r :: rest) i largest ∧
       FaceRecognitionService.cv_train_one W student
         (images, labels, label_to_student) =
         (images ++ [(p, largest)], labels ++ [st_labelId student],
          <[st_labelId student := student_info student]> label_to_student)).
Proof.
  intros Hp Hne Hex. apply truthy_spec in Hne. split.
  - intros g n loc encoding rest Hloc.
    unfold FaceRecognitionService.train_one, image_missing, face_encodings.
    rewrite Hp, Hne, Hex. simpl. by rewrite Hloc.
  - intros images labels label_to_student r rest Hread Hcas Hdet.
    destruct (max_by_area_spec r rest) as [i Hi].
    exists i, (max_by_area r rest). split; [done |].
    unfold FaceRecognitionService.cv_train_one, image_missing,
      FaceRecognitionService.detect.
    rewrite Hp, Hne, Hex. simpl. by rewrite Hread, Hcas, Hdet.
Qed.

Lemma C6_enrolled_face_witness :
  FaceRecognitionService.train_one Demo.embedding_world Demo.pair
    (fresh_gallery, 0%nat) =
    (FaceRecognitionService.enroll fresh_gallery [1%Q] Demo.pair, 1%nat) ∧
  ∃ i largest,
    first_max_area [(0, 0, 10, 10)%Z; (20, 20, 50, 50)%Z] i largest ∧
    FaceRecognitionService.cv_train_one Demo.classifier_world Demo.pair
      ([], [], ∅) =
      ([] ++ [("photos/pair.jpg", largest)], [] ++ [st_labelId Demo.pair],
       <[st_labelId Demo.pair := student_info Demo.pair]> ∅).
Proof.
  split.
  - apply (C6_enrolled_face Demo.embedding_world Demo.pair "photos/pair.jpg")
      with (loc := Demo.box) (rest := [(Demo.box2, [0%Q])]);
      [reflexivity | discriminate | reflexivity | reflexivity].
  - apply (C6_enrolled_face Demo.classifier_world Demo.pair "photos/pair.jpg");
      [reflexivity | discriminate | reflexivity
      | reflexivity | reflexivity | reflexivity].
Defined.

(** ** Gallery persistence *)

(** On whole files and failing opens, [Persistence] is the model
    directory of [FaceRecognitionService]. *)
Lemma persistence_save_refines (W : World) (g : Gallery) (fs : Files) :
  Persistence._save_model (Persistence.opens_of W) g (Persistence.disk_of fs)
  = Persistence.disk_of (FaceRecognitionService._save_model W g fs).
Proof.
  unfold Persistence._save_model, FaceRecognitionService._save_model,
    Persistence.opens_of.
  destruct (writable W EncodingsPkl); simpl; [| by destruct fs].
  by destruct (writable W LabelsPkl).
Qed.

Lemma persistence_load_refines (g : Gallery) (fs : Files) :
  Persistence._load_model g (Persistence.disk_of fs)
  = FaceRecognitionService._load_model g fs.
Proof.
  by destruct fs as [[encodings|] [data|] model].
Qed.

Lemma persistence_init_refines (W : World) (fs : Files) :
  Persistence.__init__ W (Persistence.disk_of fs)
  = Ok (RealTimeRecognition.__init__ W fs).
Proof.
  unfold Persistence.__init__, Persistence.load_model,
    RealTimeRecognition.__init__, RealTimeRecognition.load_model.
  destruct fs as [[encodings|] [data|] [model|]];
    destruct (FACE_RECOGNITION_AVAILABLE W); simpl; try done;
    by destruct (cv2_face_available W).
Qed.

Lemma persistence_main_refines (W : World) (argv : list string) (fs : Files) :
  Persistence.main W argv (Persistence.disk_of fs)
  = (stdout (RealTimeRecognitionMain.main W argv fs),
     exit_status (RealTimeRecognitionMain.main W argv fs)).
Proof.
  unfold Persistence.main, RealTimeRecognitionMain.main.
  destruct argv as [|prog [|frame_path rest]]; [done | done |].
  by rewrite persistence_init_refines.
Qed.

(** A label file truncated by a failed dump: the load that follows
    reports failure, with the descriptors already replaced. *)
Example truncated_labels_half_loaded :
  Persistence._load_model Demo.gallery_alice_bob
    (Persistence._save_model Faults.labels_dump_fails Demo.gallery_alice
       Faults.disk_alice)
  = ({| known_encodings := known_encodings Demo.gallery_alice;
        known_labels := known_labels Demo.gallery_alice_bob;
        student_data := student_data Demo.gallery_alice_bob;
        recognizer := None |}, false).
Proof. reflexivity. Qed.

(** A label file whose [open] fails keeps its old content next to the new
    descriptors, and the load that follows accepts the pair. *)
Example open_failure_mixed_pair :
  Persistence._load_model fresh_gallery
    (Persistence._save_model Faults.labels_open_fails Demo.gallery_alice_bob
       Faults.disk_alice)
  = ({| known_encodings := known_encodings Demo.gallery_alice_bob;
        known_labels := known_labels Demo.gallery_alice;
        student_data := student_data Demo.gallery_alice;
        recognizer := None |}, true).
Proof. reflexivity. Qed.

(** C7, as stated, fails: with [labels.pkl] not writable, saving the
    two-entry gallery over the store of a one-entry gallery replaces the
    descriptors only, and the next load accepts the mixed pair. *)
Lemma C7_interrupted_save_loads_mixed_gallery :
  ∃ g,
    FaceRecognitionService._load_model fresh_gallery
      (FaceRecognitionService._save_model Demo.locked_world
         Demo.gallery_alice_bob Demo.files_alice) = (g, true) ∧
    known_encodings g = known_encodings Demo.gallery_alice_bob ∧
    known_labels g = known_labels Demo.gallery_alice ∧
    length (known_encodings g) ≠ length (known_labels g).
Proof. eexists. split; [reflexivity |]. by repeat split. Qed.

(** C7, amended. [_save_model] writes the descriptor file and then the
    label file in place, with no temporary file and no swap; the first
    write that fails ends it, leaving the file as it was when [open]
    failed and unreadable when the dump failed after [open]. When both
    writes succeed, a load returns exactly the saved descriptors, labels
    and identity records. A load reports success exactly when both files
    are whole. It leaves the gallery alone when a file is missing or the
    descriptor file is unreadable; when only the label file is unreadable
    it reports failure with the descriptors already replaced. *)
Theorem C7_save_then_load (io : ModelFile → Persistence.WriteOutcome)
    (g g0 : Gallery) (d : Persistence.Disk) :
  (io EncodingsPkl = Persistence.Written →
   io LabelsPkl = Persistence.Written →
     Persistence._save_model io g d =
       {| Persistence.encodings_file := Persistence.Whole (known_encodings g);
          Persistence.labels_file :=
            Persistence.Whole
              (EmbeddingLabels (known_labels g) (student_data g));
          Persistence.model_file := Persistence.model_file d |} ∧
     Persistence._load_model g0 (Persistence._save_model io g d) =
       (loaded_over g0 g, true)) ∧
  (io EncodingsPkl = Persistence.OpenFails →
     Persistence._save_model io g d = d) ∧
  (io EncodingsPkl = Persistence.DumpFails →
     Persistence._save_model io g d =
       {| Persistence.encodings_file := Persistence.Unreadable;
          Persistence.labels_file := Persistence.labels_file d;
          Persistence.model_file := Persistence.model_file d |}) ∧
  (io EncodingsPkl = Persistence.Written →
   io LabelsPkl = Persistence.OpenFails →
     Persistence._save_model io g d =
       {| Persistence.encodings_file := Persistence.Whole (known_encodings g);
          Persistence.labels_file := Persistence.labels_file d;
          Persistence.model_file := Persistence.model_file d |}) ∧
  (io EncodingsPkl = Persistence.Written →
   io LabelsPkl = Persistence.DumpFails →
     Persistence._save_model io g d =
       {| Persistence.encodings_file := Persistence.Whole (known_encodings g);
          Persistence.labels_file := Persistence.Unreadable;
          Persistence.model_file := Persistence.model_file d |}) ∧
  (snd (Persistence._load_model g0 d) = true ↔
     ∃ encodings data,
       Persistence.encodings_file d = Persistence.Whole encodings ∧
       Persistence.labels_file d = Persistence.Whole data) ∧
  (∀ encodings data,
     Persistence.encodings_file d = Persistence.Whole encodings →
     Persistence.labels_file d = Persistence.Whole data →
     Persistence._load_model g0 d =
       ({| known_encodings := encodings;
           known_labels := get_labels data;
           student_data := get_student_data data;
           recognizer := recognizer g0 |}, true)) ∧
  (Persistence.encodings_file d = Persistence.Missing ∨
   Persistence.labels_file d = Persistence.Missing ∨
   Persistence.encodings_file d = Persistence.Unreadable →
     Persistence._load_model g0 d = (g0, false)) ∧
  (∀ encodings,
     Persistence.encodings_file d = Persistence.Whole encodings →
     Persistence.labels_file d = Persistence.Unreadable →
     Persistence._load_model g0 d =
       ({| known_encodings := encodings;
           known_labels := known_labels g0;
           student_data := student_data g0;
           recognizer := recognizer g0 |}, false)).
Proof.
  unfold Persistence._save_model, Persistence._load_model.
  split_and!.
  - by intros -> ->.
  - intros ->. by destruct d.
  - by intros ->.
  - by intros -> ->.
  - by intros -> ->.
  - destruct (Persistence.encodings_file d), (Persistence.labels_file d);
      simpl; split; try done; try (intros (? & ? & ? & ?); done).
    intros _. by eexists _, _.
  - by intros encodings data -> ->.
  - intros [-> | [-> | ->]]; simpl; [done | | ].
    + by destruct (Persistence.encodings_file d).
    + by destruct (Persistence.labels_file d).
  - by intros encodings -> ->.
Qed.



(** ** Backend selection *)

Lemma train_one_recognizer (W : World) (student : Student)
    (acc : Gallery * nat) :
  recognizer (fst (FaceRecognitionService.train_one W student acc)) =
    recognizer (fst acc).
Proof.
  destruct acc as [g n]. unfold FaceRecognitionService.train_one.
  destruct (image_missing W _); [done |].
  by destruct (face_encodings W _) as [|[|e rest]].
Qed.

Lemma train_loop_recognizer (W : World) (students : list Student)
    (acc : Gallery * nat) :
  recognizer (fst (FaceRecognitionService.train_loop W students acc)) =
    recognizer (fst acc).
Proof.
  revert acc. induction students as [|student rest IH]; intros acc; [done |].
  by rewrite train_loop_cons, IH, train_one_recognizer.
Qed.

Lemma call_embedding (W : World) (c : FaceRecognitionService.Call)
    (g : Gallery) (fs : Files) :
  FACE_RECOGNITION_AVAILABLE W = true → recognizer g = None →
  let '(g', fs', route) := FaceRecognitionService.call W c (g, fs) in
  embedding_route c route ∧ recognizer g' = None.
Proof.
  intros HFRA Hrec. destruct c as [students | image_path |]; simpl.
  - unfold FaceRecognitionService.train_from_database_routed,
      FaceRecognitionService._train_with_face_recognition.
    rewrite HFRA.
    pose proof (train_loop_recognizer W students
                  (FaceRecognitionService.reset g, 0%nat)) as Hkeep.
    destruct (FaceRecognitionService.train_loop W students
                (FaceRecognitionService.reset g, 0%nat)) as [g' n].
    simpl in Hkeep. rewrite Hrec in Hkeep.
    by destruct (n =? 0)%nat.
  - unfold FaceRecognitionService.recognize_face_routed.
    rewrite HFRA, Hrec. split; [| done].
    destruct (negb (path_exists W image_path)); simpl; [by right |].
    destruct (nonempty (known_encodings g)); simpl; [by left | by right].
  - split; [done |]. unfold FaceRecognitionService._load_model.
    by destruct (encodings_path fs), (labels_path fs).
Qed.

(** C8. When the embedding library was imported at start-up, every call of
    every sequence of training and recognition calls on a service object is
    handed to the embedding methods (or to none, when recognition finds no
    file or no gallery): the classifier methods are never reached, and the
    service never acquires a classifier. The frame recogniser built by
    [__init__] never reaches them either. *)
Theorem C8_embedding_backend_exclusive (W : World)
    (calls : list FaceRecognitionService.Call) (g : Gallery) (fs : Files) :
  FACE_RECOGNITION_AVAILABLE W = true → recognizer g = None →
  Forall2 embedding_route calls
    (fst (FaceRecognitionService.run W calls (g, fs))) ∧
  Forall (λ route, route ≠ ViaOpenCV)
    (fst (FaceRecognitionService.run W calls (g, fs))) ∧
  recognizer (fst (snd (FaceRecognitionService.run W calls (g, fs)))) = None ∧
  (∀ fs0 frame_path,
     fst (RealTimeRecognition.recognize_frame_routed W
            (RealTimeRecognition.__init__ W fs0) frame_path) ≠ ViaOpenCV).
Proof.
  intros HFRA Hrec.
  assert (Hrun : Forall2 embedding_route calls
            (fst (FaceRecognitionService.run W calls (g, fs))) ∧
          recognizer (fst (snd (FaceRecognitionService.run W calls (g, fs))))
            = None).
  { revert g fs Hrec. induction calls as [|c rest IH]; intros g fs Hrec.
    - simpl. split; [constructor | done].
    - pose proof (call_embedding W c g fs HFRA Hrec) as Hcall.
      cbn [FaceRecognitionService.run].
      destruct (FaceRecognitionService.call W c (g, fs)) as [[g1 fs1] route].
      destruct Hcall as [Hroute Hrec1].
      destruct (IH g1 fs1 Hrec1) as [Hrest Hfinal].
      destruct (FaceRecognitionService.run W rest (g1, fs1))
        as [routes final].
      simpl in *. split; [by constructor | done]. }
  destruct Hrun as [Hroutes Hfinal]. split_and!; try done.
  - clear Hfinal. induction Hroutes as [|c route cs routes Hc _ IH];
      constructor; [| done].
    destruct c; simpl in Hc; [by subst | by destruct Hc; subst | by subst].
  - intros fs0 frame_path.
    unfold RealTimeRecognition.recognize_frame_routed,
      RealTimeRecognition.__init__, RealTimeRecognition.load_model.
    rewrite HFRA.
    destruct (negb (path_exists W frame_path)); [done |].
    destruct (encodings_path fs0) as [encodings|],
      (labels_path fs0) as [data|]; simpl;
      try destruct (nonempty _); done.
Qed.

Lemma C8_embedding_backend_exclusive_witness :
  Forall2 embedding_route
    [FaceRecognitionService.Train [Demo.alice; Demo.bob];
     FaceRecognitionService.Recognize "photos/pair.jpg";
     FaceRecognitionService.Train [Demo.ghost];
     FaceRecognitionService.Recognize "photos/alice.jpg";
     FaceRecognitionService.LoadModel]
    (fst (FaceRecognitionService.run Demo.embedding_world
       [FaceRecognitionService.Train [Demo.alice; Demo.bob];
        FaceRecognitionService.Recognize "photos/pair.jpg";
        FaceRecognitionService.Train [Demo.ghost];
        FaceRecognitionService.Recognize "photos/alice.jpg";
        FaceRecognitionService.LoadModel] (fresh_gallery, no_files))) ∧
  Forall (λ route, route ≠ ViaOpenCV)
    (fst (FaceRecognitionService.run Demo.embedding_world
       [FaceRecognitionService.Train [Demo.alice; Demo.bob];
        FaceRecognitionService.Recognize "photos/pair.jpg";
        FaceRecognitionService.Train [Demo.ghost];
        FaceRecognitionService.Recognize "photos/alice.jpg";
        FaceRecognitionService.LoadModel] (fresh_gallery, no_files))) ∧
  recognizer (fst (snd (FaceRecognitionService.run Demo.embedding_world
       [FaceRecognitionService.Train [Demo.alice; Demo.bob];
        FaceRecognitionService.Recognize "photos/pair.jpg";
        FaceRecognitionService.Train [Demo.ghost];
        FaceRecognitionService.Recognize "photos/alice.jpg";
        FaceRecognitionService.LoadModel] (fresh_gallery, no_files)))) = None ∧
  (∀ fs0 frame_path,
     fst (RealTimeRecognition.recognize_frame_routed Demo.embedding_world
            (RealTimeRecognition.__init__ Demo.embedding_world fs0)
            frame_path) ≠ ViaOpenCV).
Proof.
  apply (C8_embedding_backend_exclusive Demo.embedding_world);
    reflexivity.
Defined.

(** ** Images without a face *)

Lemma failure_well_formed (msg : string) : well_formed (failure msg).
Proof. right. split; [done | by eexists]. Qed.

Lemma found_well_formed (faces : list MatchResult) :
  well_formed (found faces).
Proof. left. split; [done | by eexists]. Qed.

Create HintDb results.
#[local] Hint Resolve failure_well_formed found_well_formed : results.

(** Every public recognition call returns a result dict, whatever happens
    inside. *)
Lemma recognize_face_well_formed (W : World) (g : Gallery) (path : string) :
  well_formed (FaceRecognitionService.recognize_face W g path).
Proof.
  unfold FaceRecognitionService.recognize_face,
    FaceRecognitionService.recognize_face_routed.
  destruct (negb (path_exists W path)); simpl; [auto with results |].
  destruct (_ && _); simpl.
  - unfold FaceRecognitionService._recognize_with_face_recognition.
    destruct (locate_and_encode W path) as [e | faces]; simpl;
      [auto with results |].
    destruct (length faces =? 0)%nat; [auto with results |].
    destruct (mapM _ faces); simpl; auto with results.
  - destruct (recognizer g) as [r|]; simpl; [| auto with results].
    unfold FaceRecognitionService._recognize_with_opencv.
    destruct (negb (imread_ok W path)); [auto with results |].
    destruct (FaceRecognitionService.detect W path) as [e | faces];
      [auto with results |].
    destruct (length faces =? 0)%nat; auto with results.
Qed.

Lemma recognize_frame_well_formed (W : World) (g : Gallery) (path : string) :
  well_formed (RealTimeRecognition.recognize_frame W g path).
Proof.
  unfold RealTimeRecognition.recognize_frame,
    RealTimeRecognition.recognize_frame_routed.
  destruct (negb (path_exists W path)); simpl; [auto with results |].
  destruct (_ && _); simpl.
  - unfold RealTimeRecognition._recognize_with_face_recognition.
    destruct (locate_and_encode W path) as [e | faces]; simpl;
      [auto with results |].
    destruct (length faces =? 0)%nat; [auto with results |].
    destruct (mapM _ faces); simpl; auto with results.
  - destruct (recognizer g) as [r|]; simpl; [| auto with results].
    unfold RealTimeRecognition._recognize_with_opencv.
    destruct (negb (imread_ok W path)); [auto with results |].
    destruct (RealTimeRecognition.face_cascade W) as [[|]|];
      try auto with results.
    destruct (length _ =? 0)%nat; auto with results.
Qed.

(** C9. For an existing query image in which the detector of the active
    backend locates no face, [recognize_frame] answers success with an
    empty face list and [recognize_face] answers the failure
    "No face detected"; both calls return a result dict on every input. *)
Theorem C9_zero_faces (W : World) (g : Gallery) (path : string) :
  path_exists W path = true →
  (FACE_RECOGNITION_AVAILABLE W = true → known_encodings g ≠ [] →
   locate_and_encode W path = Ok [] →
     RealTimeRecognition.recognize_frame W g path = found [] ∧
     FaceRecognitionService.recognize_face W g path =
       failure "No face detected") ∧
  (FACE_RECOGNITION_AVAILABLE W && nonempty (known_encodings g) = false →
   is_Some (recognizer g) → imread_ok W path = true →
   detectMultiScale W path = [] →
     (RealTimeRecognition.face_cascade W = Some true →
        RealTimeRecognition.recognize_frame W g path = found []) ∧
     (FaceRecognitionService.cascade_loaded W = true →
        FaceRecognitionService.recognize_face W g path =
          failure "No face detected")) ∧
  well_formed (RealTimeRecognition.recognize_frame W g path) ∧
  well_formed (FaceRecognitionService.recognize_face W g path).
Proof.
  intros Hex. split_and!.
  - intros HFRA Hne Hloc. apply nonempty_spec in Hne.
    unfold RealTimeRecognition.recognize_frame,
      RealTimeRecognition.recognize_frame_routed,
      RealTimeRecognition._recognize_with_face_recognition,
      FaceRecognitionService.recognize_face,
      FaceRecognitionService.recognize_face_routed,
      FaceRecognitionService._recognize_with_face_recognition.
    by rewrite Hex, HFRA, Hne, Hloc.
  - intros Hroute [r Hr] Hread Hdet.
    unfold RealTimeRecognition.recognize_frame,
      RealTimeRecognition.recognize_frame_routed,
      RealTimeRecognition._recognize_with_opencv,
      FaceRecognitionService.recognize_face,
      FaceRecognitionService.recognize_face_routed,
      FaceRecognitionService._recognize_with_opencv,
      FaceRecognitionService.detect.
    rewrite Hex, Hroute, Hr, Hread, Hdet. simpl.
    split; by intros ->.
  - apply recognize_frame_well_formed.
  - apply recognize_face_well_formed.
Qed.

Lemma C9_zero_faces_witness :
  (RealTimeRecognition.recognize_frame Demo.embedding_world
     Demo.gallery_alice_bob "photos/wall.jpg" = found [] ∧
   FaceRecognitionService.recognize_face Demo.embedding_world
     Demo.gallery_alice_bob "photos/wall.jpg" = failure "No face detected") ∧
  (RealTimeRecognition.recognize_frame Demo.classifier_world
     Demo.gallery_classifier "photos/wall.jpg" = found [] ∧
   FaceRecognitionService.recognize_face Demo.classifier_world
     Demo.gallery_classifier "photos/wall.jpg" = failure "No face detected").
Proof.
  split.
  - apply (C9_zero_faces Demo.embedding_world Demo.gallery_alice_bob
             "photos/wall.jpg"); [reflexivity | reflexivity | | reflexivity].
    discriminate.
  - destruct (C9_zero_faces Demo.classifier_world Demo.gallery_classifier
                "photos/wall.jpg") as (_ & Hcv & _); [reflexivity |].
    destruct Hcv as [Hframe Hface];
      [reflexivity | by eexists | reflexivity | reflexivity |].
    split; [apply Hframe | apply Hface]; reflexivity.
Defined.

(** ** The reported confidence *)

Lemma argmin_Ok_first_min (ds : list Q) (i : nat) :
  argmin ds = Ok i → ∃ d, first_min ds i d.
Proof.
  intros Harg.
  destruct (argmin_first_min ds) as (i' & d & Harg' & Hmin).
  { intros ->. discriminate. }
  rewrite Harg in Harg'. simplify_eq. by exists d.
Qed.

(** Whenever the loop body returns a result, its confidence is one minus
    the minimum distance. *)
Lemma service_match_face_confidence (W : World) (g : Gallery)
    (loc : Location) (q : Encoding) (r : MatchResult) :
  FaceRecognitionService.match_face W g (loc, q) = Ok r →
  ∃ i d, first_min (face_distance W (known_encodings g) q) i d ∧
         confidence r = (1 - d)%Q.
Proof.
  unfold FaceRecognitionService.match_face.
  destruct (argmin (face_distance W (known_encodings g) q)) as [e | i]
    eqn:Harg; simpl; [done |].
  destruct (argmin_Ok_first_min _ _ Harg) as [d Hmin].
  pose proof Hmin as (Hat & _).
  read_nearest Hat. intros Hr. exists i, d. split; [done |].
  destruct (_ && _).
  - destruct (index (known_labels g) i) as [e | l]; simpl in Hr; [done |].
    destruct (student_data g !! l); by simplify_eq.
  - by simplify_eq.
Qed.

Lemma realtime_match_face_confidence (W : World) (g : Gallery)
    (loc : Location) (q : Encoding) (r : MatchResult) :
  RealTimeRecognition.match_face W g (loc, q) = Ok r →
  ∃ i d, first_min (face_distance W (known_encodings g) q) i d ∧
         confidence r = (1 - d)%Q.
Proof.
  unfold RealTimeRecognition.match_face.
  destruct (argmin (face_distance W (known_encodings g) q)) as [e | i]
    eqn:Harg; simpl; [done |].
  destruct (argmin_Ok_first_min _ _ Harg) as [d Hmin].
  pose proof Hmin as (Hat & _).
  read_nearest Hat. intros Hr. exists i, d. split; [done |].
  destruct (_ && _).
  - destruct (index (known_labels g) i) as [e | l]; simpl in Hr; [done |].
    by simplify_eq.
  - by simplify_eq.
Qed.

Lemma service_classify_face_confidence (W : World) (rec : Recognizer)
    (sd : gmap Z StudentInfo) (path : string) (face : Rect) :
  confidence (FaceRecognitionService.classify_face W rec sd path face) =
    ((100 - snd (predict W rec (path, face))) / 100)%Q.
Proof.
  unfold FaceRecognitionService.classify_face.
  destruct (predict W rec (path, face)) as [label raw]. simpl.
  destruct (Qgtb _ _); [| done]. by destruct (sd !! label).
Qed.

Lemma realtime_classify_face_confidence (W : World) (rec : Recognizer)
    (sd : gmap Z StudentInfo) (path : string) (face : Rect) :
  confidence (RealTimeRecognition.classify_face W rec sd path face) =
    ((100 - snd (predict W rec (path, face))) / 100)%Q.
Proof.
  unfold RealTimeRecognition.classify_face.
  destruct (predict W rec (path, face)) as [label raw]. simpl.
  destruct (Qgtb _ _); [| done]. by destruct (sd !! label).
Qed.

Lemma score_confidence_bounds (raw : Q) :
  ((0 <= raw → (100 - raw) / 100 <= 1) ∧
   (0 <= (100 - raw) / 100 ↔ raw <= 100))%Q.
Proof.
  assert (Hdiv : ((100 - raw) / 100 == (100 - raw) * (1 # 100))%Q)
    by reflexivity.
  rewrite Hdiv. split; [| split]; intros; lra.
Qed.

(** C4, as stated, fails: a query at distance 3/2 from the only enrolled
    descriptor is reported with confidence -1/2, and a raw classifier score
    of 150 likewise. *)
Lemma C4_confidence_below_zero :
  (∃ r,
     FaceRecognitionService.match_face Demo.embedding_world
       Demo.gallery_alice (Demo.box, [3 # 2]) = Ok r ∧
     (0 <= norm_diff Demo.embedding_world [0] [3 # 2])%Q ∧
     (confidence r < 0)%Q) ∧
  (0 <= snd (predict Demo.classifier_world ([], [])
               ("photos/stranger.jpg", (5, 5, 30, 30)%Z)))%Q ∧
  (confidence
     (FaceRecognitionService.classify_face Demo.classifier_world ([], [])
        ∅ "photos/stranger.jpg" (5, 5, 30, 30)%Z) < 0)%Q.
Proof.
  split; [eexists; split; [reflexivity |] |]; by vm_compute.
Qed.

(** C4, amended. The confidence of a result is [1 - distance] on the
    embedding path and [(100 - rawScore) / 100] on the classifier path,
    reported as computed, without clamping. It is at most 1 for every
    distance and raw score that is at least 0, and it is at least 0 exactly
    when the distance is at most 1, respectively the raw score at most
    100. *)
Theorem C4_confidence_formula (W : World) (g : Gallery) (loc : Location)
    (q : Encoding) (r : MatchResult) :
  FaceRecognitionService.match_face W g (loc, q) = Ok r ∨
  RealTimeRecognition.match_face W g (loc, q) = Ok r →
  (∃ i d,
     first_min (face_distance W (known_encodings g) q) i d ∧
     confidence r = (1 - d)%Q ∧
     ((0 <= d)%Q → (confidence r <= 1)%Q) ∧
     ((0 <= confidence r)%Q ↔ (d <= 1)%Q)) ∧
  (∀ rec sd path face,
     confidence (FaceRecognitionService.classify_face W rec sd path face) =
       ((100 - snd (predict W rec (path, face))) / 100)%Q ∧
     confidence (RealTimeRecognition.classify_face W rec sd path face) =
       ((100 - snd (predict W rec (path, face))) / 100)%Q ∧
     ((0 <= snd (predict W rec (path, face)))%Q →
      ((100 - snd (predict W rec (path, face))) / 100 <= 1)%Q) ∧
     ((0 <= (100 - snd (predict W rec (path, face))) / 100)%Q ↔
      (snd (predict W rec (path, face)) <= 100)%Q)).
Proof.
  intros Hr. split.
  - assert (∃ i d, first_min (face_distance W (known_encodings g) q) i d ∧
                   confidence r = (1 - d)%Q) as (i & d & Hmin & ->).
    { destruct Hr as [Hr | Hr];
        [by apply service_match_face_confidence with (loc := loc)
        | by apply realtime_match_face_confidence with (loc := loc)]. }
    exists i, d. split_and!; [done | done | intros; lra |].
    split; intros; lra.
  - intros rec sd path face.
    rewrite service_classify_face_confidence,
      realtime_classify_face_confidence.
    pose proof (score_confidence_bounds (snd (predict W rec (path, face))))
      as [Hup Hlow].
    by split_and!.
Qed.

Lemma C4_confidence_formula_witness :
  ∃ r,
    FaceRecognitionService.match_face Demo.embedding_world
      Demo.gallery_alice_bob (Demo.box, [1 # 10]) = Ok r ∧
    ∃ i d,
      first_min (face_distance Demo.embedding_world
                   (known_encodings Demo.gallery_alice_bob) [1 # 10]) i d ∧
      confidence r = (1 - d)%Q ∧
      ((0 <= d)%Q → (confidence r <= 1)%Q) ∧
      ((0 <= confidence r)%Q ↔ (d <= 1)%Q).
Proof.
  eexists. split; [reflexivity |].
  apply (C4_confidence_formula Demo.embedding_world Demo.gallery_alice_bob
           Demo.box [1 # 10]).
  left. reflexivity.
Defined.

(** ** Confidence as a function of the distance *)

(** The program computes on binary64 numbers. At the distance 0 the
    confidence is 1 and the test accepts; one step below one half the
    confidence is one half and the test refuses. *)
Example binary64_exact_match :
  Binary64.confidence_of 0 = 1%float ∧ Binary64.accepts 0 = true.
Proof. split; reflexivity. Qed.

Example binary64_just_below_half :
  (0x1.fffffffffffffp-2 <? 0x1p-1)%float = true ∧
  Binary64.confidence_of 0x1.fffffffffffffp-2 = 0x1p-1%float ∧
  Binary64.accepts 0x1.fffffffffffffp-2 = false.
Proof. split_and!; reflexivity. Qed.






(** * Further properties of the code *)

(** ** Path normalisation *)

Lemma replace_backslash_clean (s : string) :
  has_backslash (replace_backslash s) = false.
Proof.
  induction s as [|c rest IH]; [done |]. simpl.
  destruct (Ascii.eqb c "\"%char) eqn:Hc; simpl; [done |].
  by rewrite Hc.
Qed.

Lemma replace_backslash_length (s : string) :
  String.length (replace_backslash s) = String.length s.
Proof. induction s as [|c rest IH]; simpl; congruence. Qed.

Lemma replace_backslash_id (s : string) :
  has_backslash s = false → replace_backslash s = s.
Proof.
  induction s as [|c rest IH]; [done |]. simpl.
  destruct (Ascii.eqb c "\"%char); simpl; [done |].
  intros Hrest. by rewrite IH.
Qed.

Lemma truthy_replace_backslash (s : string) :
  truthy (replace_backslash s) = truthy s.
Proof. by destruct s. Qed.

(** X1. A normalised path holds no backslash and has the length of the
    path it comes from; a path without backslash is returned as it is, and
    normalising twice is normalising once. *)
Theorem normalize_path_clean (p q : string) :
  _normalize_path (Some p) = Some q →
  has_backslash q = false ∧
  String.length q = String.length p ∧
  (has_backslash p = false → q = p) ∧
  _normalize_path (Some q) = Some q.
Proof.
  unfold _normalize_path. destruct (truthy p) eqn:Hp.
  - intros [= <-]. split_and!.
    + apply replace_backslash_clean.
    + apply replace_backslash_length.
    + apply replace_backslash_id.
    + rewrite truthy_replace_backslash, Hp.
      by rewrite (replace_backslash_id _ (replace_backslash_clean p)).
  - intros [= <-]. destruct p; [| done]. by rewrite Hp.
Qed.

Lemma normalize_path_clean_witness :
  has_backslash "img/2024/alice.jpg" = false ∧
  String.length "img/2024/alice.jpg" = String.length "img\2024\alice.jpg" ∧
  (has_backslash "img\2024\alice.jpg" = false →
   "img/2024/alice.jpg" = "img\2024\alice.jpg") ∧
  _normalize_path (Some "img/2024/alice.jpg") = Some "img/2024/alice.jpg".
Proof.
  apply (normalize_path_clean "img\2024\alice.jpg" "img/2024/alice.jpg").
  reflexivity.
Defined.

(** ** What a training run leaves in memory *)

Lemma enrolled_encoding_Some (W : World) (student : Student) :
  is_Some (enrolled_encoding W student) ↔ enrollable W student.
Proof.
  rewrite <- enrollableb_spec. unfold enrolled_encoding, enrollableb.
  destruct (_normalize_path (st_imagePath student)) as [p|];
    [| by split; [intros [? ?] | ]].
  destruct (truthy p && path_exists W p); simpl;
    [| by split; [intros [? ?] | ]].
  destruct (locate_and_encode W p) as [e | [|[loc encoding] rest]];
    split; try done; by intros [? ?].
Qed.

Lemma train_one_enrolled (W : World) (student : Student) (g : Gallery)
    (n : nat) :
  FaceRecognitionService.train_one W student (g, n) =
    match enrolled_encoding W student with
    | Some encoding =>
        (FaceRecognitionService.enroll g encoding student, S n)
    | None => (g, n)
    end.
Proof.
  unfold FaceRecognitionService.train_one, enrolled_encoding, image_missing,
    face_encodings.
  destruct (_normalize_path (st_imagePath student)) as [p|]; [| done].
  simpl. destruct (truthy p); [| done].
  destruct (path_exists W p); [| done]. simpl.
  by destruct (locate_and_encode W p) as [e | [|[loc encoding] rest]].
Qed.

(** The loop appends, record by record, to what it is given. *)
Lemma train_loop_content (W : World) (students : list Student)
    (g : Gallery) (n : nat) :
  let g' := fst (FaceRecognitionService.train_loop W students (g, n)) in
  known_encodings g' =
    known_encodings g ++ omap (enrolled_encoding W) students ∧
  known_labels g' =
    known_labels g ++ map st_labelId (filter (enrollable W) students) ∧
  (∀ l, student_data g' !! l =
          match last_with_label l (filter (enrollable W) students) with
          | Some info => Some info
          | None => student_data g !! l
          end).
Proof.
  revert g n. induction students as [|student rest IH]; intros g n.
  - simpl. by rewrite !app_nil_r.
  - rewrite train_loop_cons, train_one_enrolled.
    pose proof (enrolled_encoding_Some W student) as Hsome.
    destruct (enrolled_encoding W student) as [encoding|] eqn:Henc.
    + assert (enrollable W student) as Hen by (apply Hsome; eauto).
      destruct (IH (FaceRecognitionService.enroll g encoding student) (S n))
        as (He & Hl & Hsd).
      simpl. rewrite Henc, filter_cons_True by done.
      split_and!.
      * rewrite He. simpl. by rewrite <- app_assoc.
      * rewrite Hl. simpl. by rewrite <- app_assoc.
      * intros l. rewrite Hsd. unfold last_with_label.
        destruct (decide (st_labelId student = l)) as [Heq | Hne].
        -- rewrite (filter_cons_True (λ s, st_labelId s = l)) by done.
           rewrite last_cons.
           destruct (last (filter _ (filter (enrollable W) rest))); simpl;
             [done |].
           subst l. by rewrite lookup_insert_eq.
        -- rewrite (filter_cons_False (λ s, st_labelId s = l)) by done.
           destruct (last (filter _ (filter (enrollable W) rest))); simpl;
             [done |].
           by rewrite lookup_insert_ne.
    + assert (¬ enrollable W student) as Hen.
      { intros Hen. apply Hsome in Hen. by destruct Hen. }
      destruct (IH g n) as (He & Hl & Hsd).
      simpl. rewrite Henc, filter_cons_False by done. done.
Qed.

Lemma embedding_training_gallery_aux (W : World) (students : list Student)
    (g g' : Gallery) (fs fs' : Files) (r : TrainResult) :
  FACE_RECOGNITION_AVAILABLE W = true →
  FaceRecognitionService.train_from_database W students g fs = (g', fs', r) →
  g' = fst (FaceRecognitionService.train_loop W students
              (FaceRecognitionService.reset g, 0%nat)) ∧
  known_labels g' = map st_labelId (filter (enrollable W) students) ∧
  (∀ l, student_data g' !! l =
          match last_with_label l (filter (enrollable W) students) with
          | Some info => Some info
          | None => student_data (FaceRecognitionService.reset g) !! l
          end).
Proof.
  intros HFRA Htrain.
  rewrite train_from_database_embedding in Htrain by done. simpl in Htrain.
  pose proof (train_loop_content W students
                (FaceRecognitionService.reset g) 0) as (_ & Hl & Hsd).
  assert (g' = fst (FaceRecognitionService.train_loop W students
                      (FaceRecognitionService.reset g, 0%nat))) as ->
    by (destruct (_ =? _)%nat; by simplify_eq).
  done.
Qed.

Lemma trained_gallery_facts (W : World) (students : list Student)
    (g g' : Gallery) (fs fs' : Files) (r : TrainResult) :
  FACE_RECOGNITION_AVAILABLE W = true →
  FaceRecognitionService.train_from_database W students g fs = (g', fs', r) →
  known_encodings g' = omap (enrolled_encoding W) students ∧
  known_labels g' = map st_labelId (filter (enrollable W) students) ∧
  recognizer g' = recognizer g ∧
  gallery_wf g'.
Proof.
  intros HFRA Htrain.
  destruct (embedding_training_gallery_aux W students g g' fs fs' r
              HFRA Htrain) as (-> & Hl & _).
  pose proof (train_loop_content W students
                (FaceRecognitionService.reset g) 0) as (He & _ & _).
  split_and!; [done | done | |].
  - by rewrite train_loop_recognizer.
  - apply train_loop_wf, reset_wf.
Qed.

(** X2. On the embedding backend, whatever the gallery held before and
    whether the run succeeds or not, [train_from_database] leaves in memory
    exactly one descriptor per enrollable record, in batch order, each the
    descriptor of the first face of that record's image, and the parallel
    list of their label ids. *)
Theorem embedding_training_gallery (W : World) (students : list Student)
    (g g' : Gallery) (fs fs' : Files) (r : TrainResult) :
  FACE_RECOGNITION_AVAILABLE W = true →
  FaceRecognitionService.train_from_database W students g fs = (g', fs', r) →
  known_encodings g' = omap (enrolled_encoding W) students ∧
  known_labels g' = map st_labelId (filter (enrollable W) students) ∧
  length (known_encodings g') = length (known_labels g') ∧
  length (known_labels g') = length (filter (enrollable W) students) ∧
  recognizer g' = recognizer g.
Proof.
  intros HFRA Htrain.
  rewrite train_from_database_embedding in Htrain by done. simpl in Htrain.
  pose proof (train_loop_content W students
                (FaceRecognitionService.reset g) 0) as (He & Hl & _).
  pose proof (train_loop_recognizer W students
                (FaceRecognitionService.reset g, 0%nat)) as Hrec.
  pose proof (train_loop_wf W students (FaceRecognitionService.reset g) 0
                (reset_wf g)) as [Hlen _].
  assert (g' = fst (FaceRecognitionService.train_loop W students
                      (FaceRecognitionService.reset g, 0%nat))) as ->
    by (destruct (_ =? _)%nat; by simplify_eq).
  simpl in *. rewrite He, Hl. split_and!; try done.
  - by rewrite <- He, <- Hl.
  - by rewrite length_map.
Qed.

Lemma embedding_training_gallery_witness :
  known_encodings Demo.gallery_alice_bob =
    omap (enrolled_encoding Demo.embedding_world)
      [Demo.alice; Demo.ghost; Demo.wall; Demo.bob; Demo.pathless] ∧
  known_labels Demo.gallery_alice_bob =
    map st_labelId
      (filter (enrollable Demo.embedding_world)
         [Demo.alice; Demo.ghost; Demo.wall; Demo.bob; Demo.pathless]) ∧
  length (known_encodings Demo.gallery_alice_bob) =
    length (known_labels Demo.gallery_alice_bob) ∧
  length (known_labels Demo.gallery_alice_bob) =
    length (filter (enrollable Demo.embedding_world)
              [Demo.alice; Demo.ghost; Demo.wall; Demo.bob; Demo.pathless]) ∧
  recognizer Demo.gallery_alice_bob = recognizer Demo.gallery_alice.
Proof.
  apply (embedding_training_gallery Demo.embedding_world
           [Demo.alice; Demo.ghost; Demo.wall; Demo.bob; Demo.pathless]
           Demo.gallery_alice Demo.gallery_alice_bob no_files
           {| encodings_path := Some [[0%Q]; [1%Q]];
              labels_path :=
                Some (EmbeddingLabels [1%Z; 2%Z]
                        {[ 1%Z := Demo.alice_info; 2%Z := Demo.bob_info ]});
              model_path := None |}
           (train_success 2)); [reflexivity |].
  by vm_compute.
Defined.

Lemma elem_of_map {A B : Type} (f : A → B) (l : list A) (y : B) :
  y ∈ map f l ↔ ∃ x, y = f x ∧ x ∈ l.
Proof. exact (list_elem_of_fmap f l y). Qed.

Lemma last_with_label_Some (l : Z) (students : list Student) :
  is_Some (last_with_label l students) ↔ l ∈ map st_labelId students.
Proof.
  unfold last_with_label. rewrite fmap_is_Some, last_is_Some, elem_of_map.
  split.
  - intros Hne.
    destruct (filter (λ s, st_labelId s = l) students) as [|s rest] eqn:Hf;
      [done |].
    assert (s ∈ filter (λ s, st_labelId s = l) students) as Hin
      by (rewrite Hf; apply list_elem_of_here).
    apply list_elem_of_filter in Hin as [Hl Hin]. by exists s.
  - intros (s & -> & Hin) Hnil.
    assert (s ∈ filter (λ s0, st_labelId s0 = st_labelId s) students) as Hs
      by (by apply list_elem_of_filter).
    rewrite Hnil in Hs. by apply elem_of_nil in Hs.
Qed.

(** X3. On the embedding backend the identity mapping left by
    [train_from_database] holds, under each label, the identity of the last
    enrollable record of the batch carrying that label (a later record
    overwrites an earlier one), and it holds an entry for a label exactly
    when a descriptor was enrolled under it. *)
Theorem embedding_training_identities (W : World) (students : list Student)
    (g g' : Gallery) (fs fs' : Files) (r : TrainResult) :
  FACE_RECOGNITION_AVAILABLE W = true →
  FaceRecognitionService.train_from_database W students g fs = (g', fs', r) →
  (∀ l, student_data g' !! l =
          last_with_label l (filter (enrollable W) students)) ∧
  (∀ l, is_Some (student_data g' !! l) ↔ l ∈ known_labels g') ∧
  gallery_wf g'.
Proof.
  intros HFRA Htrain.
  destruct (embedding_training_gallery_aux W students g g' fs fs' r HFRA Htrain)
    as (Hg & Hl & Hsd).
  assert (Hlookup : ∀ l, student_data g' !! l =
            last_with_label l (filter (enrollable W) students)).
  { intros l. rewrite Hsd. simpl. rewrite lookup_empty.
    by destruct (last_with_label l _). }
  split_and!; [done | |].
  - intros l. by rewrite Hlookup, Hl, last_with_label_Some.
  - subst g'.
    apply (train_loop_wf W students (FaceRecognitionService.reset g) 0),
      reset_wf.
Qed.

Lemma embedding_training_identities_witness :
  (∀ l,
     student_data
       (fst (fst (FaceRecognitionService.train_from_database
                    Demo.embedding_world [Demo.alice; Scenario.alicia]
                    fresh_gallery no_files))) !! l =
     last_with_label l
       (filter (enrollable Demo.embedding_world)
          [Demo.alice; Scenario.alicia])) ∧
  (∀ l,
     is_Some
       (student_data
          (fst (fst (FaceRecognitionService.train_from_database
                       Demo.embedding_world [Demo.alice; Scenario.alicia]
                       fresh_gallery no_files))) !! l) ↔
     l ∈ known_labels
           (fst (fst (FaceRecognitionService.train_from_database
                        Demo.embedding_world [Demo.alice; Scenario.alicia]
                        fresh_gallery no_files)))) ∧
  gallery_wf
    (fst (fst (FaceRecognitionService.train_from_database
                 Demo.embedding_world [Demo.alice; Scenario.alicia]
                 fresh_gallery no_files))).
Proof.
  apply (embedding_training_identities Demo.embedding_world
           [Demo.alice; Scenario.alicia] fresh_gallery _ no_files
           (snd (fst (FaceRecognitionService.train_from_database
                        Demo.embedding_world [Demo.alice; Scenario.alicia]
                        fresh_gallery no_files)))
           (snd (FaceRecognitionService.train_from_database
                   Demo.embedding_world [Demo.alice; Scenario.alicia]
                   fresh_gallery no_files)));
    [reflexivity | by vm_compute].
Defined.

(** Two records under one label: both descriptors stay, the later identity
    replaces the earlier one. *)
Example relabelled_batch :
  let g := fst (fst (FaceRecognitionService.train_from_database
                       Demo.embedding_world [Demo.alice; Scenario.alicia]
                       fresh_gallery no_files)) in
  known_labels g = [1%Z; 1%Z] ∧
  student_data g !! 1%Z = Some (student_info Scenario.alicia).
Proof. by vm_compute. Qed.

(** ** Training and the model directory *)

(** X4. On the embedding backend a batch with an enrollable record is
    reported as trained even when the descriptor file cannot be written:
    the result is a success with the full count while the model directory
    is exactly as it was; where it held no descriptor file, a frame
    recogniser started afterwards answers "Model not loaded". *)
Theorem embedding_training_success_unsaved (W : World)
    (students : list Student) (g : Gallery) (fs : Files) :
  FACE_RECOGNITION_AVAILABLE W = true →
  (∃ student, student ∈ students ∧ enrollable W student) →
  writable W EncodingsPkl = false →
  ∃ g',
    FaceRecognitionService.train_from_database W students g fs =
      (g', fs, train_success (length (filter (enrollable W) students))) ∧
    known_encodings g' ≠ [] ∧
    (encodings_path fs = None →
     ∀ frame_path, path_exists W frame_path = true →
       RealTimeRecognition.main W fs frame_path =
         failure "Model not loaded").
Proof.
  intros HFRA (student & Hin & Hen) Hlocked.
  pose proof (train_loop_content W students
                (FaceRecognitionService.reset g) 0) as (He & Hl & _).
  assert (Hpos : length (filter (enrollable W) students) ≠ 0%nat).
  { intros Hzero. apply nil_length_inv, filter_nil_Forall in Hzero.
    rewrite Forall_forall in Hzero. by apply (Hzero student). }
  eexists. split_and!.
  - rewrite train_from_database_embedding by done. simpl.
    apply Nat.eqb_neq in Hpos. rewrite Hpos.
    unfold FaceRecognitionService._save_model. by rewrite Hlocked.
  - intros Hnil.
    pose proof (train_loop_wf W students (FaceRecognitionService.reset g) 0
                  (reset_wf g)) as [Hlen _].
    rewrite Hnil, Hl in Hlen. simpl in Hlen.
    rewrite length_map in Hlen. done.
  - intros Hnone frame_path Hex.
    unfold RealTimeRecognition.main, RealTimeRecognition.recognize_frame,
      RealTimeRecognition.recognize_frame_routed,
      RealTimeRecognition.__init__, RealTimeRecognition.load_model.
    by rewrite HFRA, Hnone, Hex.
Qed.

Lemma embedding_training_success_unsaved_witness :
  ∃ g',
    FaceRecognitionService.train_from_database Scenario.read_only_world
      [Demo.alice; Demo.ghost; Demo.bob] fresh_gallery no_files =
      (g', no_files,
       train_success
         (length (filter (enrollable Scenario.read_only_world)
                    [Demo.alice; Demo.ghost; Demo.bob]))) ∧
    known_encodings g' ≠ [] ∧
    (encodings_path no_files = None →
     ∀ frame_path, path_exists Scenario.read_only_world frame_path = true →
       RealTimeRecognition.main Scenario.read_only_world no_files frame_path =
         failure "Model not loaded").
Proof.
  apply (embedding_training_success_unsaved Scenario.read_only_world);
    [reflexivity | | reflexivity].
  exists Demo.alice. split; [apply list_elem_of_here |].
  apply enrollableb_spec. by vm_compute.
Defined.

Lemma _save_model_idempotent (W : World) (g : Gallery) (fs : Files) :
  FaceRecognitionService._save_model W g
    (FaceRecognitionService._save_model W g fs) =
  FaceRecognitionService._save_model W g fs.
Proof.
  unfold FaceRecognitionService._save_model.
  destruct (writable W EncodingsPkl) eqn:He; rewrite ?He; [| done].
  destruct (writable W LabelsPkl) eqn:Hl; by rewrite ?Hl.
Qed.

(** X5. Training again with the same batch changes nothing: run on the
    gallery and the model directory that a run has left, on either backend
    and whether that run succeeded or failed, [train_from_database] returns
    the same result and leaves the same gallery and the same directory. *)
Theorem train_from_database_idempotent (W : World) (students : list Student)
    (g g' : Gallery) (fs fs' : Files) (r : TrainResult) :
  FaceRecognitionService.train_from_database W students g fs = (g', fs', r) →
  FaceRecognitionService.train_from_database W students g' fs' = (g', fs', r).
Proof.
  intros Htrain.
  destruct (FACE_RECOGNITION_AVAILABLE W) eqn:HFRA.
  - pose proof (trained_gallery_facts W students g g' fs fs' r
                  HFRA Htrain) as (_ & _ & Hrec & _).
    assert (FaceRecognitionService.reset g' = FaceRecognitionService.reset g)
      as Hreset by (unfold FaceRecognitionService.reset; by rewrite Hrec).
    rewrite train_from_database_embedding in Htrain |- * by done.
    simpl in *. rewrite Hreset.
    destruct (length (filter (enrollable W) students) =? 0)%nat;
      simplify_eq; [done |].
    by rewrite _save_model_idempotent.
  - unfold FaceRecognitionService.train_from_database,
      FaceRecognitionService.train_from_database_routed,
      FaceRecognitionService._train_with_opencv in *.
    rewrite HFRA in *.
    destruct (cv2_face_available W) eqn:Hcv; simpl in *;
      [| by simplify_eq].
    destruct (FaceRecognitionService.cv_train_loop W students ([], [], ∅))
      as [[images labels] label_to_student].
    destruct (length images =? 0)%nat; simpl in *; [by simplify_eq |].
    destruct (writable W RecognizerPkl) eqn:Hwr; simpl in *;
      [| by simplify_eq].
    destruct (writable W LabelsPkl) eqn:Hwl; simpl in *; by simplify_eq.
Qed.

Lemma train_from_database_idempotent_witness :
  FaceRecognitionService.train_from_database Demo.embedding_world
    [Demo.alice; Demo.ghost; Demo.bob] Demo.gallery_alice_bob
    {| encodings_path := Some [[0%Q]; [1%Q]];
       labels_path :=
         Some (EmbeddingLabels [1%Z; 2%Z]
                 {[ 1%Z := Demo.alice_info; 2%Z := Demo.bob_info ]});
       model_path := None |}
  = (Demo.gallery_alice_bob,
     {| encodings_path := Some [[0%Q]; [1%Q]];
        labels_path :=
          Some (EmbeddingLabels [1%Z; 2%Z]
                  {[ 1%Z := Demo.alice_info; 2%Z := Demo.bob_info ]});
        model_path := None |},
     train_success 2).
Proof.
  apply (train_from_database_idempotent Demo.embedding_world
           [Demo.alice; Demo.ghost; Demo.bob] Demo.gallery_alice
           Demo.gallery_alice_bob Demo.files_alice).
  by vm_compute.
Defined.



(** The same round trip on the embedding backend, run. *)
Example trained_gallery_reloaded_embedding :
  RealTimeRecognition.main Demo.embedding_world
    (snd (fst (FaceRecognitionService.main_train Demo.embedding_world
                 no_files [Demo.alice; Demo.bob])))
    "photos/alice_again.jpg"
  = found [ {| labelId := 1; name := "Alice"; department := "CS";
               confidence := 1 - Qabs (0 - (1 # 10));
               location := Demo.box |} ].
Proof. by vm_compute. Qed.

(** ** The command lines *)

(** X7. The [recognize] command of [face_recognition_service.py] never
    recognises anyone: the service object it builds reads no model file, so
    whatever the model directory holds the printed result is the failure
    "Image file not found" or "Model not trained". The exit status is 0
    exactly when a training or recognition result was printed, failure
    results included, and only the [train] command can change the model
    directory. *)
Theorem service_main_recognize_never_succeeds (W : World)
    (load_students : string → Exc (list Student)) (argv : list string)
    (fs : Files) :
  (∀ r,
     stdout (FaceRecognitionServiceMain.main W load_students argv fs) =
       Some (PrintedRecognize r) →
     r = failure "Image file not found" ∨ r = failure "Model not trained") ∧
  (exit_status (FaceRecognitionServiceMain.main W load_students argv fs) = 0%Z
   ↔ ∃ p, stdout (FaceRecognitionServiceMain.main W load_students argv fs)
            = Some p ∧
          ∀ e, p ≠ PrintedError e) ∧
  (files_left (FaceRecognitionServiceMain.main W load_students argv fs) ≠ fs →
   argv !! 1%nat = Some "train").
Proof.
  unfold FaceRecognitionServiceMain.main.
  destruct argv as [|prog [|command args]];
    [by split_and!; [| split; [| intros (? & ? & ?)] |]..|].
  destruct (String.eqb command "train") eqn:Htrain.
  { apply String.eqb_eq in Htrain as ->.
    destruct args as [|students_json rest]; simpl;
      [by split_and!; [| split; [| intros (? & ? & ?)] |] |].
    destruct (load_students students_json) as [e | students_data]; simpl.
    - split_and!; [done | | done].
      split; [done |]. intros (p & [= <-] & Hp).
      by destruct (Hp ("Error: " +:+ e)).
    - destruct (FaceRecognitionService.main_train W fs students_data)
        as [[g' fs'] result]. simpl.
      split_and!; [done | | done].
      split; [| done]. intros _. eexists. split; [done |]. done. }
  destruct (String.eqb command "recognize") eqn:Hrec;
    [| by split_and!; [| split; [| intros (? & ? & ?)] |]].
  destruct args as [|image_path rest]; simpl;
    [by split_and!; [| split; [| intros (? & ? & ?)] |] |].
  split_and!; [| | done].
  - intros r [= <-].
    unfold FaceRecognitionService.main_recognize,
      FaceRecognitionService.recognize_face,
      FaceRecognitionService.recognize_face_routed.
    destruct (path_exists W image_path); simpl; [right | by left].
    by rewrite andb_false_r.
  - split; [| done]. intros _. eexists. split; [done |]. done.
Qed.

(** ** The list of results *)

Lemma mapM_Ok_Forall2 {A B : Type} (f : A → Exc B) (l : list A)
    (rs : list B) :
  mapM f l = Ok rs ↔ Forall2 (λ a r, f a = Ok r) l rs.
Proof.
  revert rs. induction l as [|a l IH]; intros rs; simpl.
  - split; [intros [= <-]; constructor | by inversion 1].
  - destruct (f a) as [e | b] eqn:Hfa; simpl.
    + split; [done |]. inversion 1; congruence.
    + destruct (mapM f l) as [e | bs] eqn:Hrest; simpl.
      * split; [done |]. inversion 1 as [|? r0 ? rs0 Hr Hl]; subst.
        apply IH in Hl. done.
      * split.
        -- intros [= <-]. constructor; [done |]. by apply IH.
        -- inversion 1 as [|? r0 ? rs0 Hr Hl]; subst.
           apply IH in Hl. rewrite Hfa in Hr. by simplify_eq.
Qed.

Lemma service_match_face_location (W : World) (g : Gallery)
    (loc : Location) (q : Encoding) (r : MatchResult) :
  FaceRecognitionService.match_face W g (loc, q) = Ok r → location r = loc.
Proof.
  unfold FaceRecognitionService.match_face.
  destruct (argmin _) as [e | i]; simpl; [done |].
  destruct (index (face_distance _ _ _) i) as [e | d]; simpl; [done |].
  destruct (index (compare_faces _ _ _ _) i) as [e | m]; simpl; [done |].
  destruct (_ && _); [| by intros [= <-]].
  destruct (index (known_labels g) i) as [e | l]; simpl; [done |].
  destruct (student_data g !! l); by intros [= <-].
Qed.

Lemma realtime_match_face_location (W : World) (g : Gallery)
    (loc : Location) (q : Encoding) (r : MatchResult) :
  RealTimeRecognition.match_face W g (loc, q) = Ok r → location r = loc.
Proof.
  unfold RealTimeRecognition.match_face.
  destruct (argmin _) as [e | i]; simpl; [done |].
  destruct (index (face_distance _ _ _) i) as [e | d]; simpl; [done |].
  destruct (index (compare_faces _ _ _ _) i) as [e | m]; simpl; [done |].
  destruct (_ && _); [| by intros [= <-]].
  destruct (index (known_labels g) i) as [e | l]; simpl; [done |].
  by intros [= <-].
Qed.

Lemma Forall2_locations {A : Type} (f : Location * A → Exc MatchResult)
    (faces : list (Location * A)) (results : list MatchResult) :
  (∀ loc a r, f (loc, a) = Ok r → location r = loc) →
  Forall2 (λ face r, f face = Ok r) faces results →
  map location results = map fst faces.
Proof.
  intros Hloc. induction 1 as [|[loc a] r faces results Hr _ IH]; [done |].
  simpl. by rewrite IH, (Hloc _ _ _ Hr).
Qed.

(** The faces a successful embedding recognition reports, for each class. *)
Lemma service_embedding_faces (W : World) (g : Gallery) (path : string)
    (results : list MatchResult) :
  rr_faces (FaceRecognitionService._recognize_with_face_recognition W g path)
    = Some results →
  ∃ faces, locate_and_encode W path = Ok faces ∧ faces ≠ [] ∧
    Forall2 (λ face r, FaceRecognitionService.match_face W g face = Ok r)
      faces results.
Proof.
  unfold FaceRecognitionService._recognize_with_face_recognition.
  destruct (locate_and_encode W path) as [e | faces]; simpl; [done |].
  destruct faces as [|face faces]; [done |].
  change (length (face :: faces) =? 0)%nat with false. cbv iota.
  destruct (mapM _ (face :: faces)) as [e | rs] eqn:Hmap; [done |].
  intros [= <-]. exists (face :: faces). split_and!; [done | done |].
  by apply mapM_Ok_Forall2.
Qed.

Lemma realtime_embedding_faces (W : World) (g : Gallery) (path : string)
    (results : list MatchResult) :
  rr_faces (RealTimeRecognition._recognize_with_face_recognition W g path)
    = Some results →
  ∃ faces, locate_and_encode W path = Ok faces ∧
    Forall2 (λ face r, RealTimeRecognition.match_face W g face = Ok r)
      faces results.
Proof.
  unfold RealTimeRecognition._recognize_with_face_recognition.
  destruct (locate_and_encode W path) as [e | faces]; simpl; [done |].
  destruct faces as [|face faces].
  { intros [= <-]. exists []. split; [done | constructor]. }
  change (length (face :: faces) =? 0)%nat with false. cbv iota.
  destruct (mapM _ (face :: faces)) as [e | rs] eqn:Hmap; [done |].
  intros [= <-]. exists (face :: faces). split; [done |].
  by apply mapM_Ok_Forall2.
Qed.

Lemma service_classify_face_location (W : World) (rec : Recognizer)
    (sd : gmap Z StudentInfo) (path : string) (face : Rect) :
  location (FaceRecognitionService.classify_face W rec sd path face) =
    rect_location face.
Proof.
  unfold FaceRecognitionService.classify_face.
  destruct (predict W rec (path, face)) as [label raw].
  destruct (Qgtb _ _); [| done]. by destruct (sd !! label).
Qed.

Lemma realtime_classify_face_location (W : World) (rec : Recognizer)
    (sd : gmap Z StudentInfo) (path : string) (face : Rect) :
  location (RealTimeRecognition.classify_face W rec sd path face) =
    rect_location face.
Proof.
  unfold RealTimeRecognition.classify_face.
  destruct (predict W rec (path, face)) as [label raw].
  destruct (Qgtb _ _); [| done]. by destruct (sd !! label).
Qed.

Lemma map_classify_locations (f : Rect → MatchResult) (faces : list Rect) :
  (∀ face, location (f face) = rect_location face) →
  map location (map f faces) = map rect_location faces.
Proof.
  intros Hloc. induction faces as [|face faces IH]; [done |].
  simpl. by rewrite Hloc, IH.
Qed.

(** X8. A successful recognition reports one result per located face, in
    detection order: the locations of the results are, one for one, the
    located face regions on the embedding backend and the detected
    rectangles as [(y, x + w, y + h, x)] on the classifier backend. A
    success of [recognize_face] never carries an empty list. *)
Theorem results_in_detection_order (W : World) (g : Gallery) (path : string)
    (results : list MatchResult) :
  rr_faces (FaceRecognitionService.recognize_face W g path) = Some results ∨
  rr_faces (RealTimeRecognition.recognize_frame W g path) = Some results →
  ((∃ faces, locate_and_encode W path = Ok faces ∧
             map location results = map fst faces) ∨
   map location results = map rect_location (detectMultiScale W path)) ∧
  (rr_faces (FaceRecognitionService.recognize_face W g path) = Some results →
   results ≠ []).
Proof.
  intros Hfaces. split.
  - destruct Hfaces as [Hfaces | Hfaces].
    + unfold FaceRecognitionService.recognize_face,
        FaceRecognitionService.recognize_face_routed in Hfaces.
      destruct (negb (path_exists W path)); [done |].
      destruct (_ && _); simpl in Hfaces.
      * apply service_embedding_faces in Hfaces as (faces & Hloc & _ & Hall).
        left. exists faces. split; [done |].
        by apply (Forall2_locations _ _ _
                    (service_match_face_location W g)).
      * destruct (recognizer g) as [rec|]; [| done]. simpl in Hfaces.
        unfold FaceRecognitionService._recognize_with_opencv,
          FaceRecognitionService.detect in Hfaces.
        destruct (negb (imread_ok W path)); [done |].
        destruct (FaceRecognitionService.cascade_loaded W); [| done].
        destruct (length _ =? 0)%nat; [done |].
        injection Hfaces as <-. right.
        apply map_classify_locations, service_classify_face_location.
    + unfold RealTimeRecognition.recognize_frame,
        RealTimeRecognition.recognize_frame_routed in Hfaces.
      destruct (negb (path_exists W path)); [done |].
      destruct (_ && _); simpl in Hfaces.
      * apply realtime_embedding_faces in Hfaces as (faces & Hloc & Hall).
        left. exists faces. split; [done |].
        by apply (Forall2_locations _ _ _
                    (realtime_match_face_location W g)).
      * destruct (recognizer g) as [rec|]; [| done]. simpl in Hfaces.
        unfold RealTimeRecognition._recognize_with_opencv in Hfaces.
        destruct (negb (imread_ok W path)); [done |].
        destruct (RealTimeRecognition.face_cascade W) as [[|]|]; try done.
        right. destruct (detectMultiScale W path) as [|face faces] eqn:Hdet.
        -- by injection Hfaces as <-.
        -- simpl in Hfaces. injection Hfaces as <-.
           apply (map_classify_locations _ (face :: faces)),
             realtime_classify_face_location.
  - clear Hfaces. intros Hfaces.
    unfold FaceRecognitionService.recognize_face,
      FaceRecognitionService.recognize_face_routed in Hfaces.
    destruct (negb (path_exists W path)); [done |].
    destruct (_ && _); simpl in Hfaces.
    + apply service_embedding_faces in Hfaces as (faces & _ & Hne & Hall).
      intros ->. by inversion Hall.
    + destruct (recognizer g) as [rec|]; [| done]. simpl in Hfaces.
      unfold FaceRecognitionService._recognize_with_opencv,
        FaceRecognitionService.detect in Hfaces.
      destruct (negb (imread_ok W path)); [done |].
      destruct (FaceRecognitionService.cascade_loaded W); [| done].
      destruct (detectMultiScale W path) as [|face faces]; [done |].
      simpl in Hfaces. by injection Hfaces as <-.
Qed.

Lemma results_in_detection_order_witness :
  ((∃ faces,
      locate_and_encode Demo.embedding_world "photos/pair.jpg" = Ok faces ∧
      map location
        [ {| labelId := 2; name := "Bob"; department := "EE";
             confidence := 1 - Qabs (1 - 1); location := Demo.box |};
          {| labelId := 1; name := "Alice"; department := "CS";
             confidence := 1 - Qabs (0 - 0); location := Demo.box2 |} ]
      = map fst faces) ∨
   map location
     [ {| labelId := 2; name := "Bob"; department := "EE";
          confidence := 1 - Qabs (1 - 1); location := Demo.box |};
       {| labelId := 1; name := "Alice"; department := "CS";
          confidence := 1 - Qabs (0 - 0); location := Demo.box2 |} ]
   = map rect_location
       (detectMultiScale Demo.embedding_world "photos/pair.jpg")) ∧
  (rr_faces (FaceRecognitionService.recognize_face Demo.embedding_world
               Demo.gallery_alice_bob "photos/pair.jpg")
   = Some [ {| labelId := 2; name := "Bob"; department := "EE";
               confidence := 1 - Qabs (1 - 1); location := Demo.box |};
            {| labelId := 1; name := "Alice"; department := "CS";
               confidence := 1 - Qabs (0 - 0); location := Demo.box2 |} ] →
   [ {| labelId := 2; name := "Bob"; department := "EE";
        confidence := 1 - Qabs (1 - 1); location := Demo.box |};
     {| labelId := 1; name := "Alice"; department := "CS";
        confidence := 1 - Qabs (0 - 0); location := Demo.box2 |} ] ≠ []).
Proof.
  apply (results_in_detection_order Demo.embedding_world
           Demo.gallery_alice_bob "photos/pair.jpg").
  left. reflexivity.
Defined.

Lemma unknown_result_is_unknown (conf : Q) (loc : Location) :
  is_unknown (unknown_result conf loc).
Proof. done. Qed.

Lemma service_match_face_sound (W : World) (g : Gallery)
    (face : Location * Encoding) (r : MatchResult) :
  FaceRecognitionService.match_face W g face = Ok r →
  is_unknown r ∨ names_identity (student_data g) r.
Proof.
  destruct face as [loc q]. unfold FaceRecognitionService.match_face.
  destruct (argmin _) as [e | i]; simpl; [done |].
  destruct (index (face_distance _ _ _) i) as [e | d]; simpl; [done |].
  destruct (index (compare_faces _ _ _ _) i) as [e | m]; simpl; [done |].
  destruct (m && Qgtb (1 - d) (1 # 2)) eqn:Hacc;
    [| intros [= <-]; by left].
  apply andb_true_iff in Hacc as [_ Hconf]. apply Qgtb_true in Hconf.
  destruct (index (known_labels g) i) as [e | l]; simpl; [done |].
  destruct (student_data g !! l) as [s|] eqn:Hs; intros [= <-];
    [right | by left].
  by exists s.
Qed.

Lemma service_classify_face_sound (W : World) (rec : Recognizer)
    (sd : gmap Z StudentInfo) (path : string) (face : Rect) :
  is_unknown (FaceRecognitionService.classify_face W rec sd path face) ∨
  names_identity sd (FaceRecognitionService.classify_face W rec sd path face).
Proof.
  unfold FaceRecognitionService.classify_face.
  destruct (predict W rec (path, face)) as [label raw].
  destruct (Qgtb _ _) eqn:Hconf; [| by left].
  apply Qgtb_true in Hconf.
  destruct (sd !! label) as [s|] eqn:Hs; [right | by left].
  by exists s.
Qed.

(** X9. Every result reported by [recognize_face], on either backend,
    either is the Unknown result (label -1, name "Unknown", empty
    department) or names an identity of the identity mapping: its label has
    a record there, its name and department are that record's, and its
    confidence exceeds 0.5. *)
Theorem service_results_sound (W : World) (g : Gallery) (path : string)
    (results : list MatchResult) :
  rr_faces (FaceRecognitionService.recognize_face W g path) = Some results →
  Forall (λ r, is_unknown r ∨ names_identity (student_data g) r) results.
Proof.
  unfold FaceRecognitionService.recognize_face,
    FaceRecognitionService.recognize_face_routed.
  destruct (negb (path_exists W path)); [done |].
  destruct (_ && _); simpl.
  - intros Hfaces.
    apply service_embedding_faces in Hfaces as (faces & _ & _ & Hall).
    induction Hall as [|face r faces results Hr _ IH]; constructor; [| done].
    by apply (service_match_face_sound W g face).
  - destruct (recognizer g) as [rec|]; [| done]. simpl.
    unfold FaceRecognitionService._recognize_with_opencv,
      FaceRecognitionService.detect.
    destruct (negb (imread_ok W path)); [done |].
    destruct (FaceRecognitionService.cascade_loaded W); [| done].
    destruct (length _ =? 0)%nat; [done |].
    intros [= <-]. apply Forall_forall. intros r Hr.
    apply elem_of_map in Hr as (face & -> & _).
    apply service_classify_face_sound.
Qed.

Lemma service_results_sound_witness :
  Forall (λ r, is_unknown r ∨
               names_identity (student_data Demo.gallery_alice_bob) r)
    [ {| labelId := 2; name := "Bob"; department := "EE";
         confidence := 1 - Qabs (1 - 1); location := Demo.box |};
      {| labelId := 1; name := "Alice"; department := "CS";
         confidence := 1 - Qabs (0 - 0); location := Demo.box2 |} ].
Proof.
  apply (service_results_sound Demo.embedding_world Demo.gallery_alice_bob
           "photos/pair.jpg").
  reflexivity.
Defined.

Lemma realtime_match_face_sound (W : World) (g : Gallery)
    (face : Location * Encoding) (r : MatchResult) :
  RealTimeRecognition.match_face W g face = Ok r →
  is_unknown r ∨ carries_label g r.
Proof.
  destruct face as [loc q]. unfold RealTimeRecognition.match_face.
  destruct (argmin _) as [e | i]; simpl; [done |].
  destruct (index (face_distance _ _ _) i) as [e | d]; simpl; [done |].
  destruct (index (compare_faces _ _ _ _) i) as [e | m]; simpl; [done |].
  destruct (m && Qgtb (1 - d) (1 # 2)) eqn:Hacc;
    [| intros [= <-]; by left].
  apply andb_true_iff in Hacc as [_ Hconf]. apply Qgtb_true in Hconf.
  unfold index. destruct (known_labels g !! i) as [l|] eqn:Hl; simpl;
    [| done].
  intros [= <-]. right. split_and!; simpl; try done.
  left. by eapply list_elem_of_lookup_2.
Qed.

Lemma realtime_classify_face_sound (W : World) (g : Gallery)
    (rec : Recognizer) (path : string) (face : Rect) :
  is_unknown
    (RealTimeRecognition.classify_face W rec (student_data g) path face) ∨
  carries_label g
    (RealTimeRecognition.classify_face W rec (student_data g) path face).
Proof.
  unfold RealTimeRecognition.classify_face.
  destruct (predict W rec (path, face)) as [label raw].
  destruct (Qgtb _ _) eqn:Hconf; [| by left].
  apply Qgtb_true in Hconf.
  destruct (student_data g !! label) as [s|] eqn:Hs; [right | by left].
  split_and!; simpl; rewrite ?Hs; try done. right. by eexists.
Qed.

(** X10. Every result reported by [recognize_frame] either is the Unknown
    result or has a confidence above 0.5 and carries a label that is
    enrolled (listed in [known_labels] or present in the identity mapping);
    unlike [recognize_face], an enrolled label without an identity record
    is still reported, under the name "Unknown" and an empty department. *)
Theorem realtime_results_sound (W : World) (g : Gallery) (path : string)
    (results : list MatchResult) :
  rr_faces (RealTimeRecognition.recognize_frame W g path) = Some results →
  Forall (λ r, is_unknown r ∨ carries_label g r) results.
Proof.
  unfold RealTimeRecognition.recognize_frame,
    RealTimeRecognition.recognize_frame_routed.
  destruct (negb (path_exists W path)); [done |].
  destruct (_ && _); simpl.
  - intros Hfaces.
    apply realtime_embedding_faces in Hfaces as (faces & _ & Hall).
    induction Hall as [|face r faces results Hr _ IH]; constructor; [| done].
    by apply (realtime_match_face_sound W g face).
  - destruct (recognizer g) as [rec|]; [| done]. simpl.
    unfold RealTimeRecognition._recognize_with_opencv.
    destruct (negb (imread_ok W path)); [done |].
    destruct (RealTimeRecognition.face_cascade W) as [[|]|]; try done.
    destruct (length _ =? 0)%nat; intros [= <-]; [constructor |].
    apply Forall_forall. intros r Hr.
    apply elem_of_map in Hr as (face & -> & _).
    apply realtime_classify_face_sound.
Qed.

Lemma realtime_results_sound_witness :
  Forall (λ r, is_unknown r ∨ carries_label Scenario.gallery_orphan r)
    [ {| labelId := 9; name := "Unknown"; department := "";
         confidence := 1 - Qabs (0 - 0); location := Demo.box |} ].
Proof.
  apply (realtime_results_sound Demo.embedding_world Scenario.gallery_orphan
           "photos/alice.jpg").
  reflexivity.
Defined.

(** The two classes on a label without identity record. *)
Example orphan_label_service :
  FaceRecognitionService.recognize_face Demo.embedding_world
    Scenario.gallery_orphan "photos/alice.jpg"
  = found [unknown_result (1 - Qabs (0 - 0)) Demo.box].
Proof. reflexivity. Qed.

(** ** The acceptance test *)

Lemma accepted_iff_below_half (d : Q) : accepted d ↔ (d < 1 # 2)%Q.
Proof. unfold accepted. split; [intros [_ H] | intros H; split]; lra. Qed.







(** ** The two recognisers side by side *)

Lemma match_face_agree (W : World) (g : Gallery) (face : Location * Encoding) :
  known_encodings g ≠ [] → gallery_wf g →
  ∃ r, FaceRecognitionService.match_face W g face = Ok r ∧
       RealTimeRecognition.match_face W g face = Ok r.
Proof.
  intros Hne Hwf. destruct face as [loc q].
  destruct (nearest_exists W g q Hne Hwf) as (i & d & l & s & _ & Hnear).
  eexists. split;
    [by apply service_match_face with (i := i)
    | by apply realtime_match_face with (i := i)].
Qed.

Lemma classify_face_agree (W : World) (rec : Recognizer)
    (sd : gmap Z StudentInfo) (path : string) (face : Rect) :
  RealTimeRecognition.classify_face W rec sd path face =
    FaceRecognitionService.classify_face W rec sd path face.
Proof. reflexivity. Qed.

(** X12. On an existing image in which at least one face is found, the
    frame recogniser and the single-image recogniser give the same answer:
    on the embedding backend for every non-empty gallery satisfying the
    data-model invariant, with one result per located face; on the
    classifier backend whenever both find their cascade. They differ only
    on images without a face and in the wording of failures. *)
Theorem recognizers_agree (W : World) (g : Gallery) (path : string) :
  path_exists W path = true →
  (FACE_RECOGNITION_AVAILABLE W = true → known_encodings g ≠ [] →
   gallery_wf g →
   ∀ faces, locate_and_encode W path = Ok faces → faces ≠ [] →
     ∃ results,
       RealTimeRecognition.recognize_frame W g path = found results ∧
       FaceRecognitionService.recognize_face W g path = found results ∧
       length results = length faces) ∧
  (FACE_RECOGNITION_AVAILABLE W && nonempty (known_encodings g) = false →
   is_Some (recognizer g) → imread_ok W path = true →
   detectMultiScale W path ≠ [] →
   RealTimeRecognition.face_cascade W = Some true →
   FaceRecognitionService.cascade_loaded W = true →
     ∃ results,
       RealTimeRecognition.recognize_frame W g path = found results ∧
       FaceRecognitionService.recognize_face W g path = found results ∧
       length results = length (detectMultiScale W path)).
Proof.
  intros Hex. split.
  - intros HFRA Hne Hwf faces Hloc Hfaces.
    assert (∃ results,
              mapM (FaceRecognitionService.match_face W g) faces = Ok results ∧
              mapM (RealTimeRecognition.match_face W g) faces = Ok results ∧
              length results = length faces) as (results & HS & HR & Hlen).
    { clear Hloc Hfaces. induction faces as [|face faces IH].
      - by exists [].
      - destruct IH as (results & HS & HR & Hlen).
        destruct (match_face_agree W g face Hne Hwf) as (r & HrS & HrR).
        exists (r :: results). simpl.
        rewrite HrS, HrR, HS, HR. simpl. by rewrite Hlen. }
    exists results. apply nonempty_spec in Hne.
    unfold RealTimeRecognition.recognize_frame,
      RealTimeRecognition.recognize_frame_routed,
      RealTimeRecognition._recognize_with_face_recognition,
      FaceRecognitionService.recognize_face,
      FaceRecognitionService.recognize_face_routed,
      FaceRecognitionService._recognize_with_face_recognition.
    rewrite Hex, HFRA, Hne, Hloc. simpl.
    destruct faces as [|face faces]; [done |].
    change (length (face :: faces) =? 0)%nat with false. cbv iota.
    by rewrite HS, HR.
  - intros Hroute [rec Hrec] Hread Hdet HcasR HcasS.
    exists (map (FaceRecognitionService.classify_face W rec (student_data g)
                   path) (detectMultiScale W path)).
    unfold RealTimeRecognition.recognize_frame,
      RealTimeRecognition.recognize_frame_routed,
      RealTimeRecognition._recognize_with_opencv,
      FaceRecognitionService.recognize_face,
      FaceRecognitionService.recognize_face_routed,
      FaceRecognitionService._recognize_with_opencv,
      FaceRecognitionService.detect.
    rewrite Hex, Hroute, Hrec, Hread, HcasR, HcasS. simpl.
    destruct (detectMultiScale W path) as [|face faces]; [done |].
    simpl. by rewrite length_map.
Qed.

Lemma recognizers_agree_witness :
  (∃ results,
     RealTimeRecognition.recognize_frame Demo.embedding_world
       Demo.gallery_alice_bob "photos/pair.jpg" = found results ∧
     FaceRecognitionService.recognize_face Demo.embedding_world
       Demo.gallery_alice_bob "photos/pair.jpg" = found results ∧
     length results = 2%nat) ∧
  (∃ results,
     RealTimeRecognition.recognize_frame Demo.classifier_world
       Demo.gallery_classifier "photos/pair.jpg" = found results ∧
     FaceRecognitionService.recognize_face Demo.classifier_world
       Demo.gallery_classifier "photos/pair.jpg" = found results ∧
     length results = 2%nat).
Proof.
  split.
  - destruct (recognizers_agree Demo.embedding_world Demo.gallery_alice_bob
                "photos/pair.jpg") as [Hembedding _]; [reflexivity |].
    apply (Hembedding eq_refl) with
      (faces := [(Demo.box, [1%Q]); (Demo.box2, [0%Q])]);
      [discriminate | | reflexivity | discriminate].
    split; [reflexivity |].
    intros l Hl. apply list_elem_of_In in Hl. simpl in Hl.
    destruct Hl as [<- | [<- | []]]; vm_compute; eauto.
  - destruct (recognizers_agree Demo.classifier_world Demo.gallery_classifier
                "photos/pair.jpg") as [_ Hclassifier]; [reflexivity |].
    apply Hclassifier;
      [reflexivity | by eexists | reflexivity | discriminate
      | reflexivity | reflexivity].
Defined.


(** ** Recognising a training photograph *)

(** Entry [i] of the two parallel lists comes from one enrollable record. *)
Lemma enrolled_entry_origin (W : World) (students : list Student) (i : nat)
    (encoding : Encoding) (l : Z) :
  omap (enrolled_encoding W) students !! i = Some encoding →
  map st_labelId (filter (enrollable W) students) !! i = Some l →
  ∃ student, student ∈ students ∧
    enrolled_encoding W student = Some encoding ∧ st_labelId student = l.
Proof.
  revert i. induction students as [|student rest IH]; intros i; [done |].
  pose proof (enrolled_encoding_Some W student) as Hsome.
  simpl. destruct (enrolled_encoding W student) as [e|] eqn:Henc.
  - assert (enrollable W student) as Hen by (apply Hsome; eauto).
    rewrite filter_cons_True by done. destruct i as [|i]; simpl.
    + intros [= <-] [= <-]. exists student.
      split; [apply list_elem_of_here | done].
    + intros He Hl. destruct (IH i He Hl) as (s & Hin & Hs).
      exists s. split; [by apply list_elem_of_further | done].
  - assert (¬ enrollable W student) as Hen.
    { intros Hen. apply Hsome in Hen. by destruct Hen. }
    rewrite filter_cons_False by done.
    intros He Hl. destruct (IH i He Hl) as (s & Hin & Hs).
    exists s. split; [by apply list_elem_of_further | done].
Qed.

Lemma enrolled_encoding_first_face (W : World) (student : Student)
    (encoding : Encoding) :
  enrolled_encoding W student = Some encoding →
  ∃ p loc rest,
    _normalize_path (st_imagePath student) = Some p ∧
    path_exists W p = true ∧
    locate_and_encode W p = Ok ((loc, encoding) :: rest).
Proof.
  unfold enrolled_encoding.
  destruct (_normalize_path (st_imagePath student)) as [p|]; [| done].
  destruct (truthy p); [| done]. simpl.
  destruct (path_exists W p) eqn:Hex; [| done].
  destruct (locate_and_encode W p) as [e | [|[loc e] rest]] eqn:Hloc;
    try done.
  intros [= <-]. by exists p, loc, rest.
Qed.

Lemma service_embedding_found (W : World) (g : Gallery) (path : string)
    (faces : list (Location * Encoding)) (results : list MatchResult) :
  locate_and_encode W path = Ok faces → faces ≠ [] →
  mapM (FaceRecognitionService.match_face W g) faces = Ok results →
  FaceRecognitionService._recognize_with_face_recognition W g path =
    found results.
Proof.
  intros Hloc Hne Hmap.
  unfold FaceRecognitionService._recognize_with_face_recognition.
  rewrite Hloc. simpl. destruct faces as [|face faces]; [done |].
  change (length (face :: faces) =? 0)%nat with false. cbv iota.
  by rewrite Hmap.
Qed.

(** When both calls find the same faces, training is that of
    [FaceRecognitionService]. *)
Lemma detector_train_loop (W : World)
    (encode_image : string → Exc (list Encoding))
    (students : list Student) (acc : Gallery * nat) :
  Detector.same_faces W encode_image →
  Detector.train_loop W encode_image students acc =
    FaceRecognitionService.train_loop W students acc.
Proof.
  intros Hsame. revert acc.
  induction students as [|student rest IH]; intros acc; [done |].
  simpl. rewrite <- IH. f_equal.
  unfold Detector.train_one, FaceRecognitionService.train_one.
  destruct acc as [g n]. by rewrite Hsame.
Qed.

Lemma detector_train_refines (W : World)
    (encode_image : string → Exc (list Encoding))
    (students : list Student) (g : Gallery) (fs : Files) :
  Detector.same_faces W encode_image →
  Detector.train_from_database W encode_image students g fs =
    FaceRecognitionService.train_from_database W students g fs.
Proof.
  intros Hsame.
  unfold Detector.train_from_database,
    FaceRecognitionService.train_from_database,
    FaceRecognitionService.train_from_database_routed.
  destruct (FACE_RECOGNITION_AVAILABLE W); [| done]. simpl.
  unfold Detector._train_with_face_recognition,
    FaceRecognitionService._train_with_face_recognition.
  by rewrite detector_train_loop.
Qed.

Lemma same_faces_enrolled (W : World)
    (encode_image : string → Exc (list Encoding)) (student : Student)
    (p : string) (encoding : Encoding) (rest : list Encoding) :
  Detector.same_faces W encode_image →
  _normalize_path (st_imagePath student) = Some p → p ≠ "" →
  path_exists W p = true →
  encode_image p = Ok (encoding :: rest) →
  enrolled_encoding W student = Some encoding.
Proof.
  intros Hsame Hp Hne Hex Henc.
  rewrite Hsame in Henc. unfold face_encodings in Henc.
  unfold enrolled_encoding. rewrite Hp, Hex.
  apply truthy_spec in Hne. rewrite Hne. simpl.
  destruct (locate_and_encode W p) as [e | [|[loc e] faces]];
    simpl in Henc; by simplify_eq.
Qed.

(** X13. Train, then ask about a training photograph. Suppose
    [face_encodings(image)], called by the training loop, finds the faces
    that [face_locations] followed by [face_encodings(image, locations)]
    finds, in the same order, and the distance is never negative and is
    zero between a descriptor and itself. Then, on the embedding backend,
    recognising in the same service the image of a record that was
    enrolled succeeds; the result for its first face has confidence 1 and
    names an identity of the new gallery, taken from a record whose
    enrolled descriptor lies at distance zero. It is the record's own label
    whenever every record enrolled at distance zero shares that label. *)
Theorem training_photo_recognized (W : World)
    (encode_image : string → Exc (list Encoding))
    (students : list Student)
    (g g' : Gallery) (fs fs' : Files) (r : TrainResult) (student : Student)
    (p : string) (encoding : Encoding) (rest : list Encoding) :
  FACE_RECOGNITION_AVAILABLE W = true →
  Detector.same_faces W encode_image →
  (∀ a, norm_diff W a a == 0)%Q → (∀ a b, 0 <= norm_diff W a b)%Q →
  Detector.train_from_database W encode_image students g fs = (g', fs', r) →
  student ∈ students →
  _normalize_path (st_imagePath student) = Some p → p ≠ "" →
  path_exists W p = true →
  encode_image p = Ok (encoding :: rest) →
  ∃ first others origin,
    FaceRecognitionService.recognize_face W g' p = found (first :: others) ∧
    (confidence first == 1)%Q ∧
    names_identity (student_data g') first ∧
    origin ∈ students ∧ st_labelId origin = labelId first ∧
    (∃ e, enrolled_encoding W origin = Some e ∧
          (norm_diff W e encoding == 0)%Q) ∧
    ((∀ other e, other ∈ students → enrolled_encoding W other = Some e →
        (norm_diff W e encoding == 0)%Q →
        st_labelId other = st_labelId student) →
     labelId first = st_labelId student).
Proof.
  intros HFRA Hsame Hzero Hpos Htrain Hin Hp0 Hne0 Hex0 Henc0.
  rewrite detector_train_refines in Htrain by done.
  pose proof (same_faces_enrolled W encode_image student p encoding rest
                Hsame Hp0 Hne0 Hex0 Henc0) as Henc.
  clear rest Henc0.
  destruct (enrolled_encoding_first_face W student encoding Henc)
    as (p' & loc & rest & Hp & Hex & Hloc).
  rewrite Hp0 in Hp. injection Hp as <-.
  pose proof (trained_gallery_facts W students g g' fs fs' r HFRA Htrain)
    as (Hencs & Hlabels & _ & Hwf).
  assert (Hmem : encoding ∈ known_encodings g').
  { rewrite Hencs. apply list_elem_of_omap. by exists student. }
  assert (Hne : known_encodings g' ≠ []).
  { intros Hnil. rewrite Hnil in Hmem. by apply elem_of_nil in Hmem. }
  destruct (nearest_exists W g' encoding Hne Hwf)
    as (i & d & l & s & _ & Hnear).
  pose proof Hnear as ((Hat & Hmin & _) & Hl & Hs).
  assert (Hd : (d == 0)%Q).
  { apply list_elem_of_lookup_1 in Hmem as [j Hj].
    assert (norm_diff W encoding encoding ∈
              face_distance W (known_encodings g') encoding) as Hself.
    { unfold face_distance. apply elem_of_map. exists encoding.
      split; [done |]. by eapply list_elem_of_lookup_2. }
    apply Hmin in Hself. rewrite Hzero in Hself.
    unfold face_distance in Hat. rewrite lookup_map in Hat.
    destruct (known_encodings g' !! i) as [k|]; [| done].
    injection Hat as <-. pose proof (Hpos k encoding). lra. }
  assert (Hacc : acceptedb d = true) by (apply acceptedb_spec; split; lra).
  pose proof (service_match_face W g' loc encoding i d l s Hnear) as Hfirst.
  rewrite Hacc in Hfirst.
  assert (∃ others,
            mapM (FaceRecognitionService.match_face W g') rest = Ok others)
    as [others Hothers].
  { clear Hloc. induction rest as [|face rest IH]; [by exists [] |].
    destruct IH as [others Hothers].
    destruct (match_face_agree W g' face Hne Hwf) as (r0 & Hr0 & _).
    exists (r0 :: others). simpl. by rewrite Hr0, Hothers. }
  unfold face_distance in Hat. rewrite lookup_map in Hat.
  destruct (known_encodings g' !! i) as [k|] eqn:Hk; [| done].
  injection Hat as Hdk.
  rewrite Hencs in Hk. rewrite Hlabels in Hl.
  destruct (enrolled_entry_origin W students i k l Hk Hl)
    as (origin & Horigin & Hok & Hol).
  eexists _, others, origin. split_and!; try done.
  - apply nonempty_spec in Hne.
    unfold FaceRecognitionService.recognize_face,
      FaceRecognitionService.recognize_face_routed.
    rewrite Hex, HFRA, Hne. simpl.
    apply (service_embedding_found W g' p _ _ Hloc); [done |].
    apply mapM_Ok_Forall2. constructor; [exact Hfirst |].
    by apply mapM_Ok_Forall2.
  - simpl. lra.
  - exists s. simpl. split_and!; try done. lra.
  - done.
  - exists k. split; [done |]. by rewrite Hdk.
  - intros Hunique. simpl. rewrite <- Hol.
    apply (Hunique origin k); [done | done |]. by rewrite Hdk.
Qed.

Lemma training_photo_recognized_witness :
  ∃ first others origin,
    FaceRecognitionService.recognize_face Demo.embedding_world
      Demo.gallery_alice_bob "photos/bob.jpg" = found (first :: others) ∧
    (confidence first == 1)%Q ∧
    names_identity (student_data Demo.gallery_alice_bob) first ∧
    origin ∈ [Demo.alice; Demo.bob] ∧ st_labelId origin = labelId first ∧
    (∃ e, enrolled_encoding Demo.embedding_world origin = Some e ∧
          (norm_diff Demo.embedding_world e [1%Q] == 0)%Q) ∧
    ((∀ other e, other ∈ [Demo.alice; Demo.bob] →
        enrolled_encoding Demo.embedding_world other = Some e →
        (norm_diff Demo.embedding_world e [1%Q] == 0)%Q →
        st_labelId other = st_labelId Demo.bob) →
     labelId first = st_labelId Demo.bob).
Proof.
  apply (training_photo_recognized Demo.embedding_world
           (face_encodings Demo.embedding_world)
           [Demo.alice; Demo.bob] fresh_gallery Demo.gallery_alice_bob
           no_files
           {| encodings_path := Some [[0%Q]; [1%Q]];
              labels_path :=
                Some (EmbeddingLabels [1%Z; 2%Z]
                        {[ 1%Z := Demo.alice_info; 2%Z := Demo.bob_info ]});
              model_path := None |}
           (train_success 2) Demo.bob "photos/bob.jpg" [1%Q] []).
  - reflexivity.
  - intros image_path. reflexivity.
  - intros a. simpl. unfold Demo.distance.
    apply Qabs_case; intros; lra.
  - intros a b. simpl. apply Qabs_nonneg.
  - by vm_compute.
  - apply list_elem_of_further, list_elem_of_here.
  - reflexivity.
  - discriminate.
  - reflexivity.
  - reflexivity.
Defined.

(** ** Training, classifier path: what is built *)

#[global] Instance cv_enrollable_dec (W : World) (student : Student) :
  Decision (cv_enrollable W student).
Proof.
  destruct (cv_enrollableb W student) eqn:Hb.
  - left. by apply cv_enrollableb_spec.
  - right. rewrite <- cv_enrollableb_spec. congruence.
Defined.

Lemma enrolled_patch_Some (W : World) (student : Student) :
  is_Some (enrolled_patch W student) ↔ cv_enrollable W student.
Proof.
  rewrite <- cv_enrollableb_spec. unfold enrolled_patch, cv_enrollableb.
  destruct (_normalize_path (st_imagePath student)) as [p|];
    [| by split; [intros [? ?] | ]].
  destruct (truthy p && path_exists W p && imread_ok W p
            && FaceRecognitionService.cascade_loaded W); simpl;
    [| by split; [intros [? ?] | ]].
  destruct (detectMultiScale W p) as [|r rest];
    split; try done; by intros [? ?].
Qed.

Lemma cv_train_one_enrolled (W : World) (student : Student)
    (images : list Patch) (labels : list Z)
    (label_to_student : gmap Z StudentInfo) :
  FaceRecognitionService.cv_train_one W student
    (images, labels, label_to_student) =
    match enrolled_patch W student with
    | Some patch =>
        (images ++ [patch], labels ++ [st_labelId student],
         <[st_labelId student := student_info student]> label_to_student)
    | None => (images, labels, label_to_student)
    end.
Proof.
  unfold FaceRecognitionService.cv_train_one, enrolled_patch, image_missing,
    FaceRecognitionService.detect.
  destruct (_normalize_path (st_imagePath student)) as [p|]; [| done].
  simpl. destruct (truthy p); [| done].
  destruct (path_exists W p); [| done]. simpl.
  destruct (imread_ok W p); [| done]. simpl.
  destruct (FaceRecognitionService.cascade_loaded W); [| done]. simpl.
  by destruct (detectMultiScale W p).
Qed.

Lemma cv_train_loop_cons (W : World) (student : Student)
    (rest : list Student) (acc : FaceRecognitionService.CvAcc) :
  FaceRecognitionService.cv_train_loop W (student :: rest) acc =
    FaceRecognitionService.cv_train_loop W rest
      (FaceRecognitionService.cv_train_one W student acc).
Proof. reflexivity. Qed.

Lemma cv_train_loop_content (W : World) (students : list Student)
    (images : list Patch) (labels : list Z)
    (label_to_student : gmap Z StudentInfo) :
  ∃ label_to_student',
    FaceRecognitionService.cv_train_loop W students
      (images, labels, label_to_student) =
      (images ++ omap (enrolled_patch W) students,
       labels ++ map st_labelId (filter (cv_enrollable W) students),
       label_to_student') ∧
    (∀ l, label_to_student' !! l =
            match last_with_label l (filter (cv_enrollable W) students) with
            | Some info => Some info
            | None => label_to_student !! l
            end).
Proof.
  revert images labels label_to_student.
  induction students as [|student rest IH];
    intros images labels label_to_student.
  - exists label_to_student. simpl. by rewrite !app_nil_r.
  - rewrite cv_train_loop_cons, cv_train_one_enrolled.
    pose proof (enrolled_patch_Some W student) as Hsome.
    destruct (enrolled_patch W student) as [patch|] eqn:Hpatch.
    + assert (cv_enrollable W student) as Hen by (apply Hsome; eauto).
      destruct (IH (images ++ [patch]) (labels ++ [st_labelId student])
                  (<[st_labelId student := student_info student]>
                     label_to_student)) as (m & -> & Hm).
      exists m. simpl. rewrite Hpatch, filter_cons_True by done.
      simpl. rewrite <- !app_assoc. split; [done |].
      intros l. rewrite Hm. unfold last_with_label.
      destruct (decide (st_labelId student = l)) as [Heq | Hne].
      * rewrite (filter_cons_True (λ s, st_labelId s = l)) by done.
        rewrite last_cons.
        destruct (last (filter _ (filter (cv_enrollable W) rest))); simpl;
          [done |].
        subst l. by rewrite lookup_insert_eq.
      * rewrite (filter_cons_False (λ s, st_labelId s = l)) by done.
        destruct (last (filter _ (filter (cv_enrollable W) rest))); simpl;
          [done |].
        by rewrite lookup_insert_ne.
    + assert (¬ cv_enrollable W student) as Hen.
      { intros Hen. apply Hsome in Hen. by destruct Hen. }
      destruct (IH images labels label_to_student) as (m & -> & Hm).
      exists m. simpl. by rewrite Hpatch, filter_cons_False.
Qed.

Lemma length_enrolled_patches (W : World) (students : list Student) :
  length (omap (enrolled_patch W) students) =
    length (filter (cv_enrollable W) students).
Proof.
  induction students as [|student rest IH]; [done |].
  pose proof (enrolled_patch_Some W student) as Hsome. simpl.
  destruct (enrolled_patch W student) as [patch|].
  - rewrite filter_cons_True by (apply Hsome; eauto).
    cbn [length]. by f_equal.
  - rewrite filter_cons_False; [done |].
    intros Hen. apply Hsome in Hen. by destruct Hen.
Qed.

(** What the classifier loop returns from the empty accumulators. *)
Lemma cv_train_loop_from_empty (W : World) (students : list Student) :
  ∃ label_to_student,
    FaceRecognitionService.cv_train_loop W students ([], [], ∅) =
      (omap (enrolled_patch W) students,
       map st_labelId (filter (cv_enrollable W) students),
       label_to_student) ∧
    (∀ l, label_to_student !! l =
            last_with_label l (filter (cv_enrollable W) students)).
Proof.
  destruct (cv_train_loop_content W students [] [] ∅) as (m & Hloop & Hm).
  exists m. split; [done |].
  intros l. rewrite Hm, lookup_empty. by destruct (last_with_label l _).
Qed.



(** ** After a failed run on the classifier backend *)




(** Alice is recognised by the classifier, then forgotten by a failed
    retraining, although the same classifier still answers. *)
Example forgotten_after_failed_run :
  FaceRecognitionService.recognize_face Demo.classifier_world
    Demo.gallery_classifier "photos/alice.jpg"
  = found [ {| labelId := 1; name := "Alice"; department := "CS";
               confidence := (100 - 30) / 100;
               location := (10, 60, 60, 10)%Z |} ] ∧
  FaceRecognitionService.recognize_face Demo.classifier_world
    (fst (fst (FaceRecognitionService.train_from_database
                 Demo.classifier_world [Demo.ghost; Demo.wall]
                 Demo.gallery_classifier no_files)))
    "photos/alice.jpg"
  = found [unknown_result ((100 - 30) / 100) (10, 60, 60, 10)%Z].
Proof. split; reflexivity. Qed.

(** ** A model directory written by both backends *)






(** ** The frame command line *)

(** The constructor fails exactly on an unreadable store. *)
Lemma init_raises_iff (W : World) (d : Persistence.Disk) :
  (∃ e, Persistence.__init__ W d = Raise e) ↔
  Persistence.unreadable_store W d = true.
Proof.
  unfold Persistence.__init__, Persistence.load_model,
    Persistence.unreadable_store.
  destruct d as [encodings labels model]. simpl.
  destruct (FACE_RECOGNITION_AVAILABLE W).
  - destruct encodings, labels; simpl; split;
      try done; try (by intros [e He]); by eexists.
  - destruct model, labels; simpl; destruct (cv2_face_available W);
      simpl; split; try done; try (by intros [e He]); by eexists.
Qed.

(** X17. [main] of [realtime_face_recognition.py]. Without a frame path
    it prints the usage failure and exits with status 1. With one, the
    constructor loads the model outside any [try]: when a file the active
    backend needs exists and cannot be read, the process ends with
    nothing on standard output and status 1; otherwise it prints exactly
    one well-formed result dict and exits with status 0, also when the
    recognition failed. *)
Theorem realtime_main_answers_unless_load_raises (W : World)
    (argv : list string) (d : Persistence.Disk) :
  ((length argv < 2)%nat →
     Persistence.main W argv d =
       (Some (PrintedRecognize (failure "Usage: recognize <frame_path>")),
        1%Z)) ∧
  ((2 <= length argv)%nat → Persistence.unreadable_store W d = true →
     Persistence.main W argv d = (None, 1%Z)) ∧
  ((2 <= length argv)%nat → Persistence.unreadable_store W d = false →
     ∃ r, Persistence.main W argv d = (Some (PrintedRecognize r), 0%Z) ∧
          well_formed r).
Proof.
  unfold Persistence.main.
  destruct argv as [|prog [|frame_path rest]]; simpl;
    (split_and!; [done || lia | |]); try (intros; lia).
  - intros _ Hbad. apply init_raises_iff in Hbad as [e ->]. done.
  - intros _ Hgood.
    destruct (Persistence.__init__ W d) as [e | g] eqn:Hinit.
    + assert (Persistence.unreadable_store W d = true)
        by (apply init_raises_iff; by exists e).
      congruence.
    + eexists. split; [done |]. apply recognize_frame_well_formed.
Qed.

Example realtime_main_truncated_labels :
  Persistence.main Demo.embedding_world ["realtime"; "photos/alice.jpg"]
    Faults.disk_truncated = (None, 1%Z).
Proof. reflexivity. Qed.


(** ** The classifier backend without its cascade *)

Lemma no_cascade_nothing_enrollable (W : World) (students : list Student) :
  FaceRecognitionService.cascade_loaded W = false →
  Forall (λ student, ¬ cv_enrollable W student) students.
Proof.
  intros Hcas. apply Forall_forall. intros student _ (p & _ & _ & _ & _ & H & _).
  congruence.
Qed.

(** X18. On the classifier backend, when no face cascade can be loaded
    (neither from the model directory nor from a fallback location),
    every training batch fails with the message
    "No faces found in training images" and writes nothing, and no call of
    [recognize_face] succeeds. *)
Theorem classifier_without_cascade (W : World) (students : list Student)
    (g : Gallery) (fs : Files) (path : string) :
  FACE_RECOGNITION_AVAILABLE W = false → cv2_face_available W = true →
  FaceRecognitionService.cascade_loaded W = false →
  FaceRecognitionService.train_from_database W students g fs =
    (FaceRecognitionService.reset g, fs,
     train_failure "No faces found in training images") ∧
  rr_success (FaceRecognitionService.recognize_face W g path) = false.
Proof.
  intros HFRA Hcv Hcas. split.
  - unfold FaceRecognitionService.train_from_database,
      FaceRecognitionService.train_from_database_routed,
      FaceRecognitionService._train_with_opencv.
    rewrite HFRA, Hcv.
    by rewrite (cv_train_loop_nothing W students _
                  (no_cascade_nothing_enrollable W students Hcas)).
  - unfold FaceRecognitionService.recognize_face,
      FaceRecognitionService.recognize_face_routed,
      FaceRecognitionService._recognize_with_opencv,
      FaceRecognitionService.detect.
    rewrite HFRA, Hcas. simpl.
    destruct (negb (path_exists W path)); [done |].
    destruct (recognizer g) as [rec|]; [| done]. simpl.
    by destruct (negb (imread_ok W path)).
Qed.

Lemma classifier_without_cascade_witness :
  FaceRecognitionService.train_from_database Scenario.no_cascade_world
    [Demo.alice; Demo.bob] Demo.gallery_classifier no_files =
    (FaceRecognitionService.reset Demo.gallery_classifier, no_files,
     train_failure "No faces found in training images") ∧
  rr_success (FaceRecognitionService.recognize_face Scenario.no_cascade_world
                Demo.gallery_classifier "photos/alice.jpg") = false.
Proof.
  apply (classifier_without_cascade Scenario.no_cascade_world);
    reflexivity.
Defined.

(** ** The count of a training run, on either backend *)

(** With a [recognizer.train] that never raises and writes that fail at
    [open] or not at all, [Training] is [FaceRecognitionService]. *)
Lemma training_refines (W : World) (students : list Student) (g : Gallery)
    (fs : Files) :
  Training.train_from_database W (Persistence.opens_of W)
    Training.never_raises Training.permission_denied students g
    (Persistence.disk_of fs)
  = let '(g', fs', r) :=
      FaceRecognitionService.train_from_database W students g fs in
    (g', Persistence.disk_of fs', r).
Proof.
  unfold Training.train_from_database,
    FaceRecognitionService.train_from_database,
    FaceRecognitionService.train_from_database_routed.
  destruct (FACE_RECOGNITION_AVAILABLE W); simpl.
  - unfold Training._train_with_face_recognition,
      FaceRecognitionService._train_with_face_recognition.
    destruct (FaceRecognitionService.train_loop W students
                (FaceRecognitionService.reset g, 0%nat)) as [g' n].
    destruct (n =? 0)%nat; [done |].
    by rewrite persistence_save_refines.
  - unfold Training._train_with_opencv,
      FaceRecognitionService._train_with_opencv, Training.never_raises,
      Persistence.opens_of.
    destruct (cv2_face_available W); simpl; [| done].
    destruct (FaceRecognitionService.cv_train_loop W students ([], [], ∅))
      as [[images labels] label_to_student].
    destruct (length images =? 0)%nat; [done |].
    destruct (writable W RecognizerPkl); simpl; [| by destruct fs].
    by destruct (writable W LabelsPkl).
Qed.

(** C2, as stated, fails on the classifier backend: with Alice's record
    enrollable but a model file that cannot be written, the run ends in
    failure. *)
Lemma C2_classifier_write_failure :
  Demo.alice ∈ [Demo.alice] ∧
  cv_enrollable Faults.model_locked_world Demo.alice ∧
  tr_success
    (snd (FaceRecognitionService.train_from_database
            Faults.model_locked_world [Demo.alice] fresh_gallery no_files))
    = false.
Proof.
  split; [apply list_elem_of_here |]. split; [| reflexivity].
  apply cv_enrollableb_spec. reflexivity.
Qed.

(** C2, amended. A batch with at least one record that the active backend
    can enroll: on the embedding backend the run succeeds, whether or not
    the gallery could be saved, with a count equal to the number of records
    whose image exists and shows at least one face. On the classifier
    backend (with [cv2.face] importable) the run succeeds exactly when
    [recognizer.train] does not raise and the model file and the label file
    are both written, and its count is then the number of records whose
    image exists, loads and shows at least one face. Records that cannot be
    enrolled are skipped without ending the batch. *)
Theorem C2_train_count_by_backend (W : World)
    (io : ModelFile → Persistence.WriteOutcome)
    (train_error : list Patch → list Z → option string)
    (io_error : ModelFile → string)
    (students : list Student) (g : Gallery) (d : Persistence.Disk) :
  (FACE_RECOGNITION_AVAILABLE W = true →
   (∃ student, student ∈ students ∧ enrollable W student) →
   ∃ g' d' r,
     Training.train_from_database W io train_error io_error students g d
       = (g', d', r) ∧
     tr_success r = true ∧
     tr_trained_count r = Some (length (filter (enrollable W) students))) ∧
  (FACE_RECOGNITION_AVAILABLE W = false → cv2_face_available W = true →
   (∃ student, student ∈ students ∧ cv_enrollable W student) →
   ∃ g' d' r,
     Training.train_from_database W io train_error io_error students g d
       = (g', d', r) ∧
     (tr_success r = true ↔
        train_error (omap (enrolled_patch W) students)
          (map st_labelId (filter (cv_enrollable W) students)) = None ∧
        io RecognizerPkl = Persistence.Written ∧
        io LabelsPkl = Persistence.Written) ∧
     (tr_success r = true →
        tr_trained_count r =
          Some (length (filter (cv_enrollable W) students)))).
Proof.
  split.
  - intros HFRA (student & Hin & Hen).
    unfold Training.train_from_database,
      Training._train_with_face_recognition.
    rewrite HFRA.
    pose proof (train_loop_count W students
                  (FaceRecognitionService.reset g) 0%nat) as Hcount.
    destruct (FaceRecognitionService.train_loop W students
                (FaceRecognitionService.reset g, 0%nat)) as [g' n].
    simpl in Hcount. subst n.
    destruct (length (filter (enrollable W) students) =? 0)%nat eqn:Hzero.
    + apply Nat.eqb_eq, nil_length_inv in Hzero.
      apply filter_nil_Forall in Hzero.
      rewrite Forall_forall in Hzero. by destruct (Hzero student Hin).
    + eexists _, _, _. split; [reflexivity |]. done.
  - intros HFRA Hcv (student & Hin & Hen).
    unfold Training.train_from_database, Training._train_with_opencv.
    rewrite HFRA, Hcv. simpl.
    destruct (cv_train_loop_from_empty W students) as (m & -> & _).
    rewrite (length_enrolled_patches W students).
    destruct (length (filter (cv_enrollable W) students) =? 0)%nat eqn:Hzero.
    { apply Nat.eqb_eq, nil_length_inv in Hzero.
      apply filter_nil_Forall in Hzero.
      rewrite Forall_forall in Hzero. by destruct (Hzero student Hin). }
    destruct (train_error _ _) as [e|]; simpl.
    { destruct (contains _ _ || contains _ _);
        eexists _, _, _; (split; [reflexivity |]); simpl;
        (split; [split; [done | by intros (? & _)] | done]). }
    destruct (io RecognizerPkl); simpl;
      try (destruct (contains _ _ || contains _ _);
           eexists _, _, _; (split; [reflexivity |]); simpl;
           (split; [split; [done | by intros (_ & ? & _)] | done])).
    destruct (io LabelsPkl); simpl;
      try (destruct (contains _ _ || contains _ _);
           eexists _, _, _; (split; [reflexivity |]); simpl;
           (split; [split; [done | by intros (_ & _ & ?)] | done])).
    eexists _, _, _. split; [reflexivity |]. simpl. done.
Qed.

Lemma C2_train_count_by_backend_witness :
  (∃ g' d' r,
     Training.train_from_database Demo.embedding_world
       Faults.labels_dump_fails Training.never_raises
       Training.permission_denied
       [Demo.alice; Demo.ghost; Demo.wall; Demo.bob; Demo.pathless]
       Demo.gallery_alice Faults.disk_alice = (g', d', r) ∧
     tr_success r = true ∧ tr_trained_count r = Some 2%nat) ∧
  (∃ g' d' r,
     Training.train_from_database Demo.classifier_world
       Faults.all_written Training.never_raises Training.permission_denied
       [Demo.alice; Demo.pair; Demo.wall] fresh_gallery Faults.disk_alice
       = (g', d', r) ∧
     tr_success r = true ∧ tr_trained_count r = Some 2%nat) ∧
  (∃ g' d' r,
     Training.train_from_database Demo.classifier_world
       Faults.all_written Faults.train_rejects Training.permission_denied
       [Demo.alice; Demo.pair; Demo.wall] fresh_gallery Faults.disk_alice
       = (g', d', r) ∧
     tr_success r ≠ true).
Proof.
  split_and!.
  - destruct (C2_train_count_by_backend Demo.embedding_world
                Faults.labels_dump_fails Training.never_raises
                Training.permission_denied
                [Demo.alice; Demo.ghost; Demo.wall; Demo.bob; Demo.pathless]
                Demo.gallery_alice Faults.disk_alice) as [Hembedding _].
    apply Hembedding; [reflexivity |].
    exists Demo.alice. split; [apply list_elem_of_here |].
    apply enrollableb_spec. reflexivity.
  - destruct (C2_train_count_by_backend Demo.classifier_world
                Faults.all_written Training.never_raises
                Training.permission_denied
                [Demo.alice; Demo.pair; Demo.wall] fresh_gallery
                Faults.disk_alice) as [_ Hclassifier].
    destruct Hclassifier as (g' & d' & r & Htrain & Hiff & Hcount);
      [reflexivity | reflexivity | |].
    { exists Demo.alice. split; [apply list_elem_of_here |].
      apply cv_enrollableb_spec. reflexivity. }
    assert (Hok : tr_success r = true) by (by apply Hiff).
    exists g', d', r. split; [done |]. split; [done |]. by apply Hcount.
  - destruct (C2_train_count_by_backend Demo.classifier_world
                Faults.all_written Faults.train_rejects
                Training.permission_denied
                [Demo.alice; Demo.pair; Demo.wall] fresh_gallery
                Faults.disk_alice) as [_ Hclassifier].
    destruct Hclassifier as (g' & d' & r & Htrain & Hiff & _);
      [reflexivity | reflexivity | |].
    { exists Demo.alice. split; [apply list_elem_of_here |].
      apply cv_enrollableb_spec. reflexivity. }
    exists g', d', r. split; [done |].
    intros Hok. apply Hiff in Hok as (Hnone & _). done.
Defined.
